(** * bw-cli-docker: the sidecar of [main.go], embedded and verified

    The Go program logs in to the vault CLI, waits for [bw serve] to report
    an unlocked vault, and then fronts it with a reverse proxy that adds a
    health endpoint, an on-demand sync endpoint and a periodic sync loop.

    Strings are Go strings (byte sequences), the process environment and
    decoded JSON objects are finite maps keyed by strings, Go [int] and
    [time.Duration] values are integers (nanoseconds for durations), and
    everything the process does to the outside world is recorded, in
    order, in a trace of events.  The functions are followed one call at
    a time: of [main] the main goroutine is followed, with the goroutines
    it starts written down as it starts them; [startProxyServer], which
    only builds the router and listens, is left out. *)

From Stdlib Require Import ZArith String Ascii List Lia.
From Stdlib Require Import Floats.SpecFloat.
From stdpp Require Import base option list strings gmap pretty.

Local Open Scope Z_scope.
Local Open Scope list_scope.

(** ** Decoded JSON: what [encoding/json] stores in an [interface{}] *)

Module Json.

(** [nil], [bool], [float64], [string], [[]interface{}] and
    [map[string]interface{}]. *)
#[warnings="-register-all"]
Inductive value : Type :=
| Null
| Bool (b : bool)
| Number (f : spec_float)
| String (s : string)
| Array (elems : list value)
| Object (fields : gmap string value).

(** [x.(map[string]interface{})] in its comma-ok form, applied to the
    result of indexing a map: a missing key yields the nil interface,
    for which the assertion reports [ok = false]. *)
Definition as_object (x : option value) : option (gmap string value) :=
  match x with
  | Some (Object fields) => Some fields
  | _ => None
  end.

(** [x.(string)] in its comma-ok form. *)
Definition as_string (x : option value) : option string :=
  match x with
  | Some (String s) => Some s
  | _ => None
  end.

End Json.

(** ** The environment *)

(** [os.LookupEnv]: the value and whether the variable is set. *)
Definition os_LookupEnv (environ : gmap string string) (key : string)
  : option string :=
  environ !! key.

(** [os.Getenv]: the value, empty when the variable is not set. *)
Definition os_Getenv (environ : gmap string string) (key : string) : string :=
  default "" (environ !! key).

(** [getEnv] (main.go, lines 22-27). *)
Definition getEnv (environ : gmap string string) (key fallback : string)
  : string :=
  match os_LookupEnv environ key with
  | Some value => if bool_decide (value ≠ "") then value else fallback
  | None => fallback
  end.

(** ** The unlock predicate *)

(** The test [status, ok := m["status"].(string); ok && status == "unlocked"]
    shared by the three [if] statements of [isUnlocked]. *)
Definition status_unlocked (m : gmap string Json.value) : bool :=
  match Json.as_string (m !! "status") with
  | Some status => bool_decide (status = "unlocked")
  | None => false
  end.

(** [isUnlocked] (main.go, lines 157-172). *)
Definition isUnlocked (v : gmap string Json.value) : bool :=
  let in_data :=
    match Json.as_object (v !! "data") with
    | Some data =>
        let in_template :=
          match Json.as_object (data !! "template") with
          | Some template => status_unlocked template
          | None => false
          end in
        if in_template then true
        else if status_unlocked data then true
        else false
    | None => false
    end in
  if in_data then true
  else if status_unlocked v then true
  else false.

(** ** The process and the world around it *)

(** A Go [error] is carried as the text its [Error] method returns. *)
Definition error : Type := string.

(** [fmt.Errorf] with its verbs already substituted. *)
Definition fmt_Errorf (msg : string) : error := msg.

Definition LF : string := String "010" "".

(** What the process does to the outside world, in order. *)
Inductive Event : Type :=
| Stdout (text : string)            (* written to os.Stdout *)
| Stderr (text : string)            (* written to os.Stderr *)
| Exec (argv : list string)         (* an external process spawned and awaited *)
| HttpGet (url : string)            (* client.Get *)
| HttpPost (url contentType : string)  (* http.Post with a nil body *)
| Sleep (d : Z)                     (* time.Sleep *)
| NewTicker (d : Z)                 (* time.NewTicker *)
| Forward (method path : string).   (* a request handed to the reverse proxy *)

(** An awaited external command: the captured combined output (stdout and
    stderr) and the error of [CombinedOutput] / [Run], [None] on exit 0. *)
Record CmdResult : Type := mkCmd {
  cmd_output : string;
  cmd_err : option error
}.

(** One HTTP exchange as the callers look at it. *)
Inductive HttpResult : Type :=
| NetError (err : error)
| Response (StatusCode : Z) (Body : string) (ReadErr : option error).

(** The answers of the outside world.  The [n]-th command the process
    spawns, the [n]-th GET and the [n]-th POST it issues (counted from 0)
    each get their own answer, so a server may change its mind between
    two polls. *)
Record World : Type := mkWorld {
  exec_result : nat -> list string -> CmdResult;
  get_result : nat -> string -> HttpResult;
  post_result : nat -> string -> HttpResult;
  proxy_result : string -> string -> Z * string
}.

(** The functions of the Go standard library that [main.go] calls and
    whose results the program only passes on. *)
Record GoLib : Type := mkGoLib {
  json_Unmarshal : string -> option (gmap string Json.value);
  strings_TrimSpace : string -> string;
  time_ParseDuration : string -> Z + error;
  Duration_String : Z -> string
}.

Definition Second : Z := 1000000000.
Definition Minute : Z := 60 * Second.

(** The mutable state of the process: its environment, the package-level
    variables of lines 29-33 and the trace so far. *)
Record Proc : Type := mkProc {
  environ : gmap string string;
  bwServeWaitRetries : Z;
  bwServeWaitInterval : Z;
  trace : list Event
}.

(** The process as the Go runtime starts it: the [var] block initialises
    the retry count to 30 and the interval to one second. *)
Definition boot (env : gmap string string) : Proc :=
  {| environ := env;
     bwServeWaitRetries := 30;
     bwServeWaitInterval := 1 * Second;
     trace := [] |}.

(** How a computation ends: it returns, the process exits, or it panics. *)
Inductive Outcome (A : Type) : Type :=
| Ret (a : A)
| Exit (code : Z)
| Panic (msg : string).
Arguments Ret {A} a.
Arguments Exit {A} code.
Arguments Panic {A} msg.

Definition M (A : Type) : Type := Proc -> Outcome A * Proc.

#[global] Instance M_ret : MRet M := fun A (a : A) p => (Ret a, p).

#[global] Instance M_bind : MBind M := fun A B (k : A -> M B) (m : M A) p =>
  match m p with
  | (Ret a, p') => k a p'
  | (Exit c, p') => (Exit c, p')
  | (Panic msg, p') => (Panic msg, p')
  end.

(** The process after it has done [es] on top of what it had done. *)
Definition add_events (p : Proc) (es : list Event) : Proc :=
  {| environ := environ p;
     bwServeWaitRetries := bwServeWaitRetries p;
     bwServeWaitInterval := bwServeWaitInterval p;
     trace := trace p ++ es |}.

Definition emit (e : Event) : M unit :=
  fun p => (Ret tt, add_events p [e]).

Definition reads {A} (f : Proc -> A) : M A := fun p => (Ret (f p), p).

Definition os_Exit {A} (code : Z) : M A := fun p => (Exit code, p).

Definition panic {A} (msg : string) : M A := fun p => (Panic msg, p).

Definition is_exec (e : Event) : bool :=
  match e with Exec _ => true | _ => false end.
Definition is_get (e : Event) : bool :=
  match e with HttpGet _ => true | _ => false end.
Definition is_post (e : Event) : bool :=
  match e with HttpPost _ _ => true | _ => false end.
Definition is_sleep (e : Event) : bool :=
  match e with Sleep _ => true | _ => false end.

(** How many events of one kind a trace holds. *)
Definition count (f : Event -> bool) (t : list Event) : nat :=
  length (filter (fun e => f e = true) t).

(** ** The program *)

Section Sidecar.

Variable W : World.
Variable L : GoLib.

(** [fmt.Println] of one already joined line. *)
Definition fmt_Println (line : string) : M unit :=
  emit (Stdout (line +:+ LF)).

(** [fmt.Fprintf(os.Stderr, ...)] with its verbs already substituted. *)
Definition eprintf (text : string) : M unit :=
  emit (Stderr text).

Definition Getenv (key : string) : M string :=
  reads (fun p => os_Getenv (environ p) key).

(** [execCommand(argv...)] followed by [CombinedOutput] or by [Run] with
    both streams captured: the process is spawned, awaited, and the
    world says how it went. *)
Definition run_command (argv : list string) : M CmdResult :=
  n ← reads (fun p => count is_exec (trace p));
  emit (Exec argv);;
  mret (exec_result W n argv).

(** Lines 99-116 of [loginAndGetSession]: login, then unlock. *)
Definition login_then_unlock : M (string * option error) :=
  login ← run_command ["bw"; "login"; "--apikey"];
  match cmd_err login with
  | Some err =>
      mret ("", Some (fmt_Errorf
        ("bw login failed: " +:+ cmd_output login +:+ " - " +:+ err)))
  | None =>
      fmt_Println "Logged in successfully";;
      fmt_Println "Unlocking vault...";;
      unlock ← run_command
        ["bw"; "unlock"; "--passwordenv"; "BW_PASSWORD"; "--raw"];
      match cmd_err unlock with
      | Some err =>
          mret ("", Some (fmt_Errorf
            ("bw unlock failed: " +:+ cmd_output unlock +:+ " - " +:+ err)))
      | None =>
          mret (strings_TrimSpace L (cmd_output unlock), None)
      end
  end.

(** [loginAndGetSession] (main.go, lines 78-117). *)
Definition loginAndGetSession : M (string * option error) :=
  fmt_Println "Executing Bitwarden login...";;
  host ← Getenv "BW_HOST";
  clientID ← Getenv "BW_CLIENTID";
  clientSecret ← Getenv "BW_CLIENTSECRET";
  password ← Getenv "BW_PASSWORD";
  if bool_decide (clientID = "") || bool_decide (clientSecret = "")
     || bool_decide (password = "")
  then
    mret ("", Some (fmt_Errorf
      "missing one or more required environment variables (BW_CLIENTID, BW_CLIENTSECRET, BW_PASSWORD)"))
  else if bool_decide (host ≠ "") then
    fmt_Println ("Configuring bw-cli to use the supplied host " +:+ host);;
    config ← run_command ["bw"; "config"; "server"; host];
    match cmd_err config with
    | Some err =>
        mret ("", Some (fmt_Errorf
          ("bw config server failed: " +:+ cmd_output config
             +:+ " - " +:+ err)))
    | None => login_then_unlock
    end
  else login_then_unlock.

(** [startBwServe] (main.go, lines 120-129): the child writes to the
    streams of the process itself; when it ends in an error the whole
    process exits with status 1. *)
Definition startBwServe (port sessionToken : string) : M unit :=
  emit (Stdout ("Starting 'bw serve' on internal port " +:+ port +:+ LF));;
  cmd ← run_command
    ["bw"; "serve"; "--hostname"; "0.0.0.0"; "--port"; port;
     "--session"; sessionToken];
  match cmd_err cmd with
  | Some err =>
      eprintf ("FATAL: 'bw serve' process failed: " +:+ err +:+ LF);;
      os_Exit 1
  | None => mret tt
  end.

(** [client.Get(statusURL)]. *)
Definition http_Get (url : string) : M HttpResult :=
  n ← reads (fun p => count is_get (trace p));
  emit (HttpGet url);;
  mret (get_result W n url).

Definition time_Sleep (d : Z) : M unit := emit (Sleep d).

(** Lines 140-151: does this attempt's answer show an unlocked vault? *)
Definition attempt_unlocked (r : HttpResult) : bool :=
  match r with
  | NetError _ => false
  | Response StatusCode body ioErr =>
      if bool_decide (StatusCode = 200) && bool_decide (ioErr = None) then
        match json_Unmarshal L body with
        | Some v => isUnlocked v
        | None => false
        end
      else false
  end.

(** The [for] loop of lines 138-153 with [remaining] iterations to go,
    that is [bwServeWaitRetries - i], and line 154 after it. *)
Fixpoint poll (statusURL : string) (remaining : nat) : M (option error) :=
  match remaining with
  | O =>
      mret (Some (fmt_Errorf
        "timeout waiting for bw serve to become unlocked"))
  | S remaining' =>
      r ← http_Get statusURL;
      if attempt_unlocked r then mret None
      else
        interval ← reads bwServeWaitInterval;
        time_Sleep interval;;
        poll statusURL remaining'
  end.

(** [waitForBwServe] (main.go, lines 132-155). *)
Definition waitForBwServe (port : string) : M (option error) :=
  let statusURL := "http://127.0.0.1:" +:+ port +:+ "/status" in
  fmt_Println "Waiting for 'bw serve' to become ready and unlocked...";;
  retries ← reads bwServeWaitRetries;
  poll statusURL (Z.to_nat retries).

(** *** The router *)

(** What a handler sees of a request, and what it leaves in the
    response writer. *)
Record Request : Type := mkRequest {
  Method : string;
  Path : string
}.

Record Reply : Type := mkReply {
  Code : Z;
  Body : string
}.

(** [http.Error]: the status code, and the message followed by a line
    feed as the body. *)
Definition http_Error (msg : string) (code : Z) : Reply :=
  {| Code := code; Body := msg +:+ LF |}.

Definition StatusOK : Z := 200.
Definition StatusMethodNotAllowed : Z := 405.
Definition StatusInternalServerError : Z := 500.
Definition MethodPost : string := "POST".

(** The handler of [/healthz] (lines 197-200). *)
Definition healthz (r : Request) : M Reply :=
  mret {| Code := StatusOK; Body := "OK" |}.

(** The handler of [/sync] (lines 203-221). *)
Definition sync (r : Request) : M Reply :=
  if bool_decide (Method r ≠ MethodPost) then
    mret (http_Error "Method not allowed" StatusMethodNotAllowed)
  else
    fmt_Println "Executing 'bw sync'...";;
    cmd ← run_command ["bw"; "sync"];
    match cmd_err cmd with
    | Some _ =>
        eprintf ("Sync failed: " +:+ cmd_output cmd +:+ LF);;
        mret (http_Error ("Sync failed: " +:+ cmd_output cmd)
                StatusInternalServerError)
    | None =>
        fmt_Println "Sync successful.";;
        mret {| Code := StatusOK; Body := "Sync successful" |}
    end.

(** [proxy.ServeHTTP]: the request goes to the backing service and its
    answer comes back. *)
Definition proxy_ServeHTTP (r : Request) : M Reply :=
  emit (Forward (Method r) (Path r));;
  let '(code, body) := proxy_result W (Method r) (Path r) in
  mret {| Code := code; Body := body |}.

(** The mux built by [setupRouter] (lines 193-227), serving a request
    whose path is already clean: [/healthz] and [/sync] match exactly,
    [/] matches every other path. *)
Definition setupRouter (r : Request) : M Reply :=
  if bool_decide (Path r = "/healthz") then healthz r
  else if bool_decide (Path r = "/sync") then sync r
  else proxy_ServeHTTP r.

(** *** The periodic sync *)

(** [time.NewTicker] panics on a non-positive interval. *)
Definition time_NewTicker (d : Z) : M unit :=
  if bool_decide (d <= 0) then panic "non-positive interval for NewTicker"
  else emit (NewTicker d).

(** [http.Post(url, contentType, nil)]; the body of the answer is read
    only by the caller. *)
Definition http_Post (url contentType : string) : M HttpResult :=
  n ← reads (fun p => count is_post (trace p));
  emit (HttpPost url contentType);;
  mret (post_result W n url).

(** One turn of the loop of lines 243-260. *)
Definition periodic_sync_tick (syncURL : string) : M unit :=
  fmt_Println "Periodic sync triggered...";;
  r ← http_Post syncURL "application/json";
  match r with
  | NetError err => eprintf ("Periodic sync failed: " +:+ err)
  | Response StatusCode body ioErr =>
      if bool_decide (StatusCode ≠ StatusOK) then
        match ioErr with
        | Some err =>
            eprintf ("Periodic sync failed with status code: "
                       +:+ pretty StatusCode
                       +:+ " and could not read body: " +:+ err +:+ LF)
        | None =>
            eprintf ("Periodic sync failed with status code: "
                       +:+ pretty StatusCode
                       +:+ ", body: " +:+ body +:+ LF)
        end
      else mret tt
  end.

(** The first [n] turns of [for range ticker.C]. *)
Fixpoint periodic_sync_loop (syncURL : string) (n : nat) : M unit :=
  match n with
  | O => mret tt
  | S n' => periodic_sync_tick syncURL;; periodic_sync_loop syncURL n'
  end.

(** [startPeriodicSync] (main.go, lines 229-261), followed up to its
    [ticks]-th tick: the Go function itself never returns. *)
Definition startPeriodicSync (host port : string) (ticks : nat) : M unit :=
  syncIntervalStr ← reads (fun p => getEnv (environ p) "BW_SYNC_INTERVAL" "2m");
  syncInterval ←
    match time_ParseDuration L syncIntervalStr with
    | inr err =>
        eprintf ("WARN: Invalid format for BW_SYNC_INTERVAL '"
                   +:+ syncIntervalStr
                   +:+ "', using default of 2 minutes: " +:+ err);;
        mret (2 * Minute)
    | inl syncInterval => mret syncInterval
    end;
  let syncURL := "http://" +:+ host +:+ ":" +:+ port +:+ "/sync" in
  emit (Stdout ("Starting periodic sync every "
                  +:+ Duration_String L syncInterval
                  +:+ " targeting " +:+ syncURL +:+ LF));;
  time_NewTicker syncInterval;;
  periodic_sync_loop syncURL ticks.

End Sidecar.

(** The five configuration reads that go through [getEnv], as
    (variable, fallback): lines 50, 62, 66 and 67 of [main] and line 230
    of [startPeriodicSync]. *)
Definition getEnv_call_sites : list (string * string) :=
  [ ("BW_SERVE_PORT", "8088");
    ("BW_PROXY_PORT", "8087");
    ("BW_DISABLE_SYNC", "false");
    ("BW_PROXY_HOST", "localhost");
    ("BW_SYNC_INTERVAL", "2m") ].

(** ** The words of the specification *)

(** The value found by descending from [x] through objects along [path]. *)
Fixpoint at_path (path : list string) (x : Json.value) : option Json.value :=
  match path with
  | [] => Some x
  | key :: rest =>
      match x with
      | Json.Object fields =>
          match fields !! key with
          | Some y => at_path rest y
          | None => None
          end
      | _ => None
      end
  end.

(** The three documented placements of the string [unlocked]:
    [data.template.status], [data.status], top-level [status]. *)
Definition documented_placement (v : gmap string Json.value) : Prop :=
  at_path ["data"; "template"; "status"] (Json.Object v)
    = Some (Json.String "unlocked")
  \/ at_path ["data"; "status"] (Json.Object v) = Some (Json.String "unlocked")
  \/ at_path ["status"] (Json.Object v) = Some (Json.String "unlocked").

(** The error classes of the specification, read off the messages the
    program builds. *)
Definition ConfigurationError (e : error) : Prop :=
  e = "missing one or more required environment variables (BW_CLIENTID, BW_CLIENTSECRET, BW_PASSWORD)".

Definition CommandError (e : error) : Prop :=
  exists step output err,
    step ∈ ["bw config server"; "bw login"; "bw unlock"]
    /\ e = step +:+ " failed: " +:+ output +:+ " - " +:+ err.

Definition TimeoutError (e : error) : Prop :=
  e = "timeout waiting for bw serve to become unlocked".

(** The three ways the specification lists for an attempt to be not
    ready: a network error, a status other than 200, a body that is not
    valid JSON. *)
Definition failed_attempt (L : GoLib) (r : HttpResult) : Prop :=
  match r with
  | NetError _ => True
  | Response StatusCode body _ =>
      StatusCode <> 200 \/ json_Unmarshal L body = None
  end.

(** An attempt whose status payload satisfies the unlock predicate. *)
Definition unlocked_payload (L : GoLib) (r : HttpResult) : Prop :=
  exists body v,
    r = Response 200 body None
    /\ json_Unmarshal L body = Some v
    /\ isUnlocked v = true.

(** The command lines a trace spawned, in order. *)
Definition spawned (t : list Event) : list (list string) :=
  omap (fun e => match e with Exec argv => Some argv | _ => None end) t.

(** The pauses of a trace, in order. *)
Definition sleeps (t : list Event) : list Z :=
  omap (fun e => match e with Sleep d => Some d | _ => None end) t.

(** [n] unsuccessful poll attempts: a GET and the pause after it, each. *)
Definition rounds (url : string) (interval : Z) (n : nat) : list Event :=
  concat (replicate n [HttpGet url; Sleep interval]).

(** The answer of the world to the [i]-th command, GET or POST that the
    process issues from state [p] on. *)
Definition next_command (W : World) (p : Proc) (i : nat) (argv : list string)
  : CmdResult :=
  exec_result W (count is_exec (trace p) + i) argv.

Definition next_get (W : World) (p : Proc) (i : nat) (url : string)
  : HttpResult :=
  get_result W (count is_get (trace p) + i) url.

(** ** Concrete worlds for the closed examples *)

Module Sample.

Definition DQ : string := String "034" "".
Definition quoted (s : string) : string := DQ +:+ s +:+ DQ.

(** The status payload of the repository's tests, with [status] at
    [data.template.status], as text and decoded. *)
Definition status_body (status : string) : string :=
  "{" +:+ quoted "data" +:+ ": {" +:+ quoted "template" +:+ ": {"
      +:+ quoted "status" +:+ ": " +:+ quoted status +:+ "}}}".

Definition status_value (status : string) : gmap string Json.value :=
  {[ "data" :=
       Json.Object {[ "template" :=
         Json.Object {[ "status" := Json.String status ]} ]} ]}.

(** A decoder that knows the two payloads of the tests and takes every
    other body for malformed. *)
Definition Unmarshal (body : string) : option (gmap string Json.value) :=
  if bool_decide (body = status_body "unlocked") then
    Some (status_value "unlocked")
  else if bool_decide (body = status_body "locked") then
    Some (status_value "locked")
  else None.

(** Trimming of the ASCII white space: tab, line feed, vertical tab,
    form feed, carriage return and space. *)
Definition is_space (c : ascii) : bool :=
  let n := nat_of_ascii c in
  ((9 <=? n)%nat && (n <=? 13)%nat) || (n =? 32)%nat.

Fixpoint trim_left (s : string) : string :=
  match s with
  | String c rest => if is_space c then trim_left rest else s
  | EmptyString => EmptyString
  end.

Definition TrimSpace (s : string) : string :=
  String.rev (trim_left (String.rev (trim_left s))).

(** Durations written as one decimal number and one unit. *)
Fixpoint number (s : string) (acc : Z) : Z * string :=
  match s with
  | String c rest =>
      let n := nat_of_ascii c in
      if (48 <=? n)%nat && (n <=? 57)%nat
      then number rest (10 * acc + Z.of_nat (n - 48))
      else (acc, s)
  | EmptyString => (acc, EmptyString)
  end.

Definition unit_of (s : string) : option Z :=
  if bool_decide (s = "ns") then Some 1
  else if bool_decide (s = "us") then Some 1000
  else if bool_decide (s = "ms") then Some 1000000
  else if bool_decide (s = "s") then Some Second
  else if bool_decide (s = "m") then Some Minute
  else if bool_decide (s = "h") then Some (60 * Minute)
  else None.

Definition ParseDuration (s : string) : Z + error :=
  let '(n, rest) := number s 0 in
  if bool_decide (rest = s) then inr ("time: invalid duration " +:+ s)
  else match unit_of rest with
       | Some u => inl (n * u)
       | None => inr ("time: unknown unit in duration " +:+ s)
       end.

Definition lib : GoLib :=
  {| json_Unmarshal := Unmarshal;
     strings_TrimSpace := TrimSpace;
     time_ParseDuration := ParseDuration;
     Duration_String := fun d => pretty d +:+ "ns" |}.

(** A world in which commands answer by [cmd] and the status endpoint
    answers its [n]-th GET by [status n]; the sync endpoint accepts
    every POST and the backing service answers 200 with no body. *)
Definition world (cmd : list string -> CmdResult)
    (status : nat -> HttpResult) : World :=
  {| exec_result := fun _ argv => cmd argv;
     get_result := fun n _ => status n;
     post_result := fun _ _ => Response 200 "Sync successful" None;
     proxy_result := fun _ _ => (200, "") |}.

Definition unlocked : HttpResult :=
  Response 200 (status_body "unlocked") None.
Definition locked : HttpResult :=
  Response 200 (status_body "locked") None.

(** Every command succeeds; unlocking prints a session key framed by
    white space. *)
Definition bw_ok (argv : list string) : CmdResult :=
  if bool_decide (argv !! 1%nat = Some "unlock")
  then {| cmd_output := " kZ9vQ==" +:+ LF; cmd_err := None |}
  else {| cmd_output := ""; cmd_err := None |}.

(** Every command fails after printing [boom]. *)
Definition bw_fails (argv : list string) : CmdResult :=
  {| cmd_output := "boom"; cmd_err := Some "exit status 1" |}.

(** Unlocking is refused, the other commands succeed. *)
Definition bw_wrong_password (argv : list string) : CmdResult :=
  if bool_decide (argv !! 1%nat = Some "unlock")
  then {| cmd_output := "Invalid master password.";
          cmd_err := Some "exit status 1" |}
  else {| cmd_output := ""; cmd_err := None |}.

Definition secrets : gmap string string :=
  {[ "BW_CLIENTID" := "user.0f1e";
     "BW_CLIENTSECRET" := "s3cr3t";
     "BW_PASSWORD" := "hunter2" ]}.

(** The variables the repository's tests set before polling. *)
Definition poll_overrides : gmap string string :=
  {[ "BW_SERVE_WAIT_RETRIES" := "2";
     "BW_SERVE_WAIT_INTERVAL" := "10ms" ]}.

End Sample.

(** ** Start-up *)

(** A [go f(args)] statement of [main]: the function started and its
    arguments.  What the started function does is what its own
    definition above does; [main] goes on without waiting for it. *)
Inductive Goroutine : Type :=
| GoStartBwServe (port sessionToken : string)
| GoStartProxyServer (proxyPort targetPort : string)
| GoStartPeriodicSync (host port : string).

(** The main goroutine: the process and the goroutines it has started. *)
Record Main : Type := mkMain {
  proc : Proc;
  launched : list Goroutine
}.

Definition MM (A : Type) : Type := Main -> Outcome A * Main.

#[global] Instance MM_ret : MRet MM := fun A (a : A) s => (Ret a, s).

#[global] Instance MM_bind : MBind MM := fun A B (k : A -> MM B) (m : MM A) s =>
  match m s with
  | (Ret a, s') => k a s'
  | (Exit c, s') => (Exit c, s')
  | (Panic msg, s') => (Panic msg, s')
  end.

(** A call made by the main goroutine itself. *)
Definition call {A} (m : M A) : MM A :=
  fun s =>
    let '(o, p') := m (proc s) in
    (o, {| proc := p'; launched := launched s |}).

(** [go f(args)]. *)
Definition go (g : Goroutine) : MM unit :=
  fun s => (Ret tt, {| proc := proc s; launched := launched s ++ [g] |}).

Section Startup.

Variable W : World.
Variable L : GoLib.

(** The error [os.Setenv] returns for a key and a value, if any. *)
Variable Setenv_error : string -> string -> option error.

(** [os.Setenv]: on success the variable holds the value from now on. *)
Definition os_Setenv (key value : string) : M (option error) :=
  fun p =>
    match Setenv_error key value with
    | Some err => (Ret (Some err), p)
    | None =>
        (Ret None,
         {| environ := <[key := value]> (environ p);
            bwServeWaitRetries := bwServeWaitRetries p;
            bwServeWaitInterval := bwServeWaitInterval p;
            trace := trace p |})
    end.

(** [bwProxyPort := getEnv(...)] and the function calls like it. *)
Definition getEnvM (key fallback : string) : M string :=
  reads (fun p => getEnv (environ p) key fallback).

(** Steps 3 and 4 of [main] (lines 59-71), once the API is unlocked. *)
Definition main_serve (bwServePort : string) : MM unit :=
  call (fmt_Println
    "Bitwarden serve API is ready and unlocked. Authentication successful.");;
  bwProxyPort ← call (getEnvM "BW_PROXY_PORT" "8087");
  go (GoStartProxyServer bwProxyPort bwServePort);;
  disable ← call (getEnvM "BW_DISABLE_SYNC" "false");
  if bool_decide (disable ≠ "true") then
    bwProxyHost ← call (getEnvM "BW_PROXY_HOST" "localhost");
    go (GoStartPeriodicSync bwProxyHost bwProxyPort)
  else
    call (fmt_Println "Automatic sync is disabled.").

(** [main] (main.go, lines 35-75) up to its final [select {}]: a run that
    returns is a main goroutine that blocks forever with the process
    alive. *)
Definition main : MM unit :=
  login ← call (loginAndGetSession W L);
  match login with
  | (_, Some err) =>
      call (eprintf ("FATAL: Bitwarden login failed: " +:+ err +:+ LF));;
      call (os_Exit 1)
  | (sessionToken, None) =>
      set ← call (os_Setenv "BW_SESSION" sessionToken);
      match set with
      | Some err =>
          call (eprintf
            ("FATAL: Failed to set BW_SESSION environment variable: "
               +:+ err +:+ LF));;
          call (os_Exit 1)
      | None =>
          bwServePort ← call (getEnvM "BW_SERVE_PORT" "8088");
          go (GoStartBwServe bwServePort sessionToken);;
          ready ← call (waitForBwServe W L bwServePort);
          match ready with
          | Some err =>
              call (eprintf
                ("FATAL: Bitwarden serve API failed to initialize: "
                   +:+ err +:+ LF));;
              call (os_Exit 1)
          | None => main_serve bwServePort
          end
      end
  end.

End Startup.

(** The process image the operating system starts: no goroutine yet. *)
Definition start (env : gmap string string) : Main :=
  {| proc := boot env; launched := [] |}.

(** ** The command double of the tests (main_test.go) *)

(** [mockExecCommand] (main_test.go, lines 16-22): the argument vector
    and the environment of the child, which is the test binary
    [os.Args[0]] itself. *)
Definition mockExecCommand (os_Args0 command : string) (args : list string)
  : list string * list string :=
  let cs := ["-test.run=TestHelperProcess"; "--"; command] ++ args in
  (os_Args0 :: cs, ["GO_WANT_HELPER_PROCESS=1"]).

(** The loop of lines 32-38: drop the arguments up to and including the
    first [--]. *)
Fixpoint after_dashes (args : list string) : list string :=
  match args with
  | [] => []
  | arg :: rest =>
      if bool_decide (arg = "--") then rest else after_dashes rest
  end.

(** [TestHelperProcess] (main_test.go, lines 25-54) run with the argument
    vector [os_Args]. *)
Definition TestHelperProcess (os_Args : list string) : M unit :=
  want ← Getenv "GO_WANT_HELPER_PROCESS";
  if bool_decide (want ≠ "1") then mret tt
  else
    match after_dashes os_Args with
    | [] =>
        eprintf ("No command" +:+ LF);;
        os_Exit 2
    | cmd :: args =>
        if bool_decide (cmd = "bw") then
          match args with
          | arg :: _ =>
              if bool_decide (arg = "sync") then
                fmt_Println "Sync successful";;
                os_Exit 0
              else os_Exit 0
          | [] => os_Exit 0
          end
        else os_Exit 0
    end.

(** ** More words about traces *)

(** The URLs a trace sent a GET to, in order. *)
Definition fetched (t : list Event) : list string :=
  omap (fun e => match e with HttpGet url => Some url | _ => None end) t.

(** The URL and content type of the POSTs of a trace, in order. *)
Definition posted (t : list Event) : list (string * string) :=
  omap (fun e => match e with
                 | HttpPost url contentType => Some (url, contentType)
                 | _ => None
                 end) t.

(** The texts a trace wrote to the error stream, in order. *)
Definition complaints (t : list Event) : list string :=
  omap (fun e => match e with Stderr text => Some text | _ => None end) t.

(** The command lines of the login sequence, in the order the program
    would spawn them for a given [BW_HOST]. *)
Definition login_commands (host : string) : list (list string) :=
  (if bool_decide (host ≠ "") then [["bw"; "config"; "server"; host]]
   else [])
  ++ [["bw"; "login"; "--apikey"];
      ["bw"; "unlock"; "--passwordenv"; "BW_PASSWORD"; "--raw"]].

(** The answer of the world to the [i]-th POST from state [p] on. *)
Definition next_post (W : World) (p : Proc) (i : nat) (url : string)
  : HttpResult :=
  post_result W (count is_post (trace p) + i) url.

(** The elements of a path: the pieces between its slashes. *)
Fixpoint segments (s : string) : list string :=
  match s with
  | EmptyString => [EmptyString]
  | String c rest =>
      if bool_decide (c = "/"%char) then EmptyString :: segments rest
      else match segments rest with
           | seg :: more => String c seg :: more
           | [] => [String c EmptyString]
           end
  end.

(** No element is empty, [.] or [..]; the last one may be empty, which
    is a trailing slash. *)
Fixpoint clean_segments (segs : list string) : bool :=
  match segs with
  | [] => true
  | [last] => negb (bool_decide (last = ".") || bool_decide (last = ".."))
  | seg :: more =>
      negb (bool_decide (seg = "") || bool_decide (seg = ".")
            || bool_decide (seg = ".."))
      && clean_segments more
  end.

(** A path that [http.ServeMux] hands to a handler as it is: rooted and
    equal to its own cleaned form.  Any other path is answered by the mux
    itself with a redirect to the cleaned path, which [setupRouter] above
    does not describe. *)
Definition clean_path (path : string) : bool :=
  match path with
  | EmptyString => false
  | String c rest => bool_decide (c = "/"%char) && clean_segments (segments rest)
  end.

(** Whether the sync endpoint answered a POST with 200. *)
Definition answered_ok (r : HttpResult) : bool :=
  match r with
  | NetError _ => false
  | Response StatusCode _ _ => bool_decide (StatusCode = 200)
  end.

(** How many of the next [n] POSTs from state [p] on are not answered
    with 200. *)
Definition failing_posts (W : World) (p : Proc) (url : string) (n : nat)
  : nat :=
  length (filter (fun i => answered_ok (next_post W p i url) = false)
            (seq 0 n)).

(** Further concrete values for the closed examples. *)
Module Example.

(** [os.Setenv] as the system call has it: a NUL byte in the value is
    refused. *)
Fixpoint has_nul (s : string) : bool :=
  match s with
  | EmptyString => false
  | String c rest => (nat_of_ascii c =? 0)%nat || has_nul rest
  end.

Definition Setenv_error (key value : string) : option error :=
  if has_nul value then Some "setenv: invalid argument" else None.

(** No command ever fails to start or exits non-zero, except the login. *)
Definition bw_login_refused (argv : list string) : CmdResult :=
  if bool_decide (argv !! 1%nat = Some "login")
  then {| cmd_output := "client_id or client_secret is incorrect.";
          cmd_err := Some "exit status 1" |}
  else {| cmd_output := ""; cmd_err := None |}.

(** Every command succeeds; unlocking prints a key with a NUL byte in
    it. *)
Definition bw_nul_key (argv : list string) : CmdResult :=
  if bool_decide (argv !! 1%nat = Some "unlock")
  then {| cmd_output := String "000" "kZ9vQ=="; cmd_err := None |}
  else {| cmd_output := ""; cmd_err := None |}.

(** The status endpoint refuses connections twice, then reports an
    unlocked vault. *)
Definition slow_start (n : nat) : HttpResult :=
  match n with
  | O | 1%nat => NetError "connection refused"
  | _ => Sample.unlocked
  end.

End Example.

(** * Properties *)

(** ** The unlock predicate *)

Lemma status_unlocked_spec (m : gmap string Json.value) :
  status_unlocked m = true <-> m !! "status" = Some (Json.String "unlocked").
Proof.
  unfold status_unlocked.
  destruct (m !! "status") as [[]|] eqn:E; simpl; try (split; congruence).
  rewrite bool_decide_eq_true. split; congruence.
Qed.

Lemma at_path_status (m : gmap string Json.value) :
  at_path ["status"] (Json.Object m) = m !! "status".
Proof. simpl. destruct (m !! "status"); reflexivity. Qed.

Lemma at_path_field (key : string) (rest : list string)
    (m : gmap string Json.value) (x : Json.value) :
  m !! key = Some x ->
  at_path (key :: rest) (Json.Object m) = at_path rest x.
Proof. intros E. simpl. rewrite E. reflexivity. Qed.

Lemma at_path_through_scalar (key : string) (rest : list string)
    (x : Json.value) :
  Json.as_object (Some x) = None -> at_path (key :: rest) x = None.
Proof. destruct x; simpl; congruence. Qed.

Lemma at_path_missing (key : string) (rest : list string)
    (m : gmap string Json.value) :
  m !! key = None -> at_path (key :: rest) (Json.Object m) = None.
Proof. intros E. simpl. rewrite E. reflexivity. Qed.

(** C1. On every decoded JSON object [isUnlocked] answers [true] exactly
    when the string [unlocked] sits at [data.template.status], at
    [data.status] or at the top-level [status]; it is a total function, so
    on every other shape it answers [false] and never fails, in particular
    on the objects [{}], [{data: 123}], [{data: {template: []}}] and
    [{status: {}}]. *)
Theorem isUnlocked_iff_documented_placement :
  (forall v : gmap string Json.value,
      isUnlocked v = true <-> documented_placement v)
  /\ isUnlocked ∅ = false
  /\ isUnlocked {[ "data" := Json.Number (S754_finite false 123 0) ]} = false
  /\ isUnlocked {[ "data" := Json.Object {[ "template" := Json.Array [] ]} ]}
     = false
  /\ isUnlocked {[ "status" := Json.Object ∅ ]} = false.
Proof.
  split; [| repeat split; vm_compute; reflexivity].
  intros v. unfold documented_placement. rewrite (at_path_status v).
  rewrite <- (status_unlocked_spec v). unfold isUnlocked.
  destruct (v !! "data") as [d|] eqn:Ed.
  - destruct (Json.as_object (Some d)) as [data|] eqn:Eo.
    + assert (d = Json.Object data) as ->
        by (destruct d; simpl in Eo; congruence).
      rewrite !(at_path_field "data" _ v _ Ed), (at_path_status data).
      rewrite <- (status_unlocked_spec data).
      destruct (data !! "template") as [t|] eqn:Et.
      * destruct (Json.as_object (Some t)) as [template|] eqn:Eo'.
        -- assert (t = Json.Object template) as ->
             by (destruct t; simpl in Eo'; congruence).
           rewrite (at_path_field "template" _ data _ Et),
             (at_path_status template).
           rewrite <- (status_unlocked_spec template).
           destruct (status_unlocked template), (status_unlocked data),
             (status_unlocked v); intuition congruence.
        -- rewrite (at_path_field "template" _ data _ Et),
             (at_path_through_scalar _ _ t Eo').
           destruct (status_unlocked data), (status_unlocked v);
             intuition congruence.
      * simpl Json.as_object. rewrite (at_path_missing _ _ data Et).
        destruct (status_unlocked data), (status_unlocked v);
          intuition congruence.
    + rewrite !(at_path_field "data" _ v _ Ed),
        !(at_path_through_scalar _ _ d Eo).
      destruct (status_unlocked v); intuition congruence.
  - simpl Json.as_object. rewrite !(at_path_missing _ _ v Ed).
    destruct (status_unlocked v); intuition congruence.
Qed.

(** ** The environment lookup *)

Lemma getEnv_unset (env : gmap string string) (key fallback : string) :
  env !! key = None -> getEnv env key fallback = fallback.
Proof. intros E. unfold getEnv, os_LookupEnv. rewrite E. reflexivity. Qed.

Lemma getEnv_empty (env : gmap string string) (key fallback : string) :
  env !! key = Some "" -> getEnv env key fallback = fallback.
Proof. intros E. unfold getEnv, os_LookupEnv. rewrite E. reflexivity. Qed.

(** C10. [getEnv] does not tell a variable that is set to the empty
    string from one that is not set: in both environments it returns the
    fallback, for every variable, and so for each of the five
    configuration reads of the program. *)
Theorem getEnv_empty_same_as_unset :
  forall env : gmap string string,
    (forall key fallback : string,
        getEnv (<[key := ""]> env) key fallback = fallback
        /\ getEnv (delete key env) key fallback = fallback)
    /\ Forall (fun site : string * string =>
                 getEnv (<[site.1 := ""]> env) site.1 site.2
                 = getEnv (delete site.1 env) site.1 site.2)
              getEnv_call_sites.
Proof.
  intros env.
  assert (forall key fallback : string,
             getEnv (<[key := ""]> env) key fallback = fallback
             /\ getEnv (delete key env) key fallback = fallback) as H.
  { intros key fallback. split.
    - apply getEnv_empty, lookup_insert_eq.
    - apply getEnv_unset, lookup_delete_eq. }
  split; [exact H |].
  apply Forall_forall. intros [key fallback] _. simpl.
  destruct (H key fallback) as [-> ->]. reflexivity.
Qed.

(** ** Traces *)

Lemma add_events_nil (p : Proc) : add_events p [] = p.
Proof. destruct p. unfold add_events. simpl. rewrite app_nil_r. reflexivity. Qed.

Lemma add_events_app (p : Proc) (es es' : list Event) :
  add_events (add_events p es) es' = add_events p (es ++ es').
Proof. unfold add_events. simpl. rewrite app_assoc. reflexivity. Qed.

Lemma count_app (f : Event -> bool) (t t' : list Event) :
  count f (t ++ t') = (count f t + count f t')%nat.
Proof. unfold count. rewrite filter_app, length_app. reflexivity. Qed.

Lemma count_nil (f : Event -> bool) : count f [] = 0%nat.
Proof. reflexivity. Qed.

Lemma count_cons (f : Event -> bool) (e : Event) (t : list Event) :
  count f (e :: t) = ((if f e then 1 else 0) + count f t)%nat.
Proof.
  unfold count. rewrite filter_cons.
  destruct (f e); case_decide; simpl; congruence.
Qed.

(** Counts the events of a literal trace. *)
Ltac count_events :=
  cbn [app]; rewrite ?count_cons, ?count_nil;
  cbn [is_exec is_get is_post is_sleep Nat.add].

Lemma spawned_app (t t' : list Event) :
  spawned (t ++ t') = spawned t ++ spawned t'.
Proof. apply omap_app. Qed.

Lemma sleeps_app (t t' : list Event) :
  sleeps (t ++ t') = sleeps t ++ sleeps t'.
Proof. apply omap_app. Qed.

Lemma count_get_rounds (url : string) (interval : Z) (n : nat) :
  count is_get (rounds url interval n) = n.
Proof.
  induction n as [|n IH]; [reflexivity |].
  change (rounds url interval (S n))
    with ([HttpGet url; Sleep interval] ++ rounds url interval n).
  rewrite count_app, IH. reflexivity.
Qed.

Lemma sleeps_rounds (url : string) (interval : Z) (n : nat) :
  sleeps (rounds url interval n) = replicate n interval.
Proof.
  induction n as [|n IH]; [reflexivity |].
  change (rounds url interval (S n))
    with ([HttpGet url; Sleep interval] ++ rounds url interval n).
  rewrite sleeps_app, IH. reflexivity.
Qed.

(** Unfolds one layer of the monad and of its primitive actions. *)
Ltac run :=
  unfold fmt_Println, eprintf, Getenv, run_command, http_Get, http_Post,
    time_Sleep, emit, reads, mbind, mret, M_bind, M_ret;
  simpl.

(** ** Login *)

Lemma os_Getenv_unset (env : gmap string string) (key : string) :
  env !! key = None -> os_Getenv env key = "".
Proof. intros E. unfold os_Getenv. rewrite E. reflexivity. Qed.

(** With one of the three secrets empty, login stops after its first
    line of output. *)
Lemma loginAndGetSession_missing (W : World) (L : GoLib) (p : Proc) :
  os_Getenv (environ p) "BW_CLIENTID" = ""
  \/ os_Getenv (environ p) "BW_CLIENTSECRET" = ""
  \/ os_Getenv (environ p) "BW_PASSWORD" = "" ->
  loginAndGetSession W L p
  = (Ret ("", Some (fmt_Errorf
       "missing one or more required environment variables (BW_CLIENTID, BW_CLIENTSECRET, BW_PASSWORD)")),
     add_events p [Stdout ("Executing Bitwarden login..." +:+ LF)]).
Proof.
  intros H. unfold loginAndGetSession. run.
  assert (bool_decide (os_Getenv (environ p) "BW_CLIENTID" = "")
          || bool_decide (os_Getenv (environ p) "BW_CLIENTSECRET" = "")
          || bool_decide (os_Getenv (environ p) "BW_PASSWORD" = "") = true)
    as ->.
  { rewrite !orb_true_iff, !bool_decide_eq_true. tauto. }
  reflexivity.
Qed.

(** C5. If the client id, the client secret or the unlock password is
    not set in the environment, [loginAndGetSession] returns the
    configuration error, and the commands spawned so far are the ones
    spawned before the call: it starts no external process. *)
Theorem loginAndGetSession_missing_secret (W : World) (L : GoLib) (p : Proc) :
  environ p !! "BW_CLIENTID" = None
  \/ environ p !! "BW_CLIENTSECRET" = None
  \/ environ p !! "BW_PASSWORD" = None ->
  exists (e : error) (p' : Proc),
    loginAndGetSession W L p = (Ret ("", Some e), p')
    /\ ConfigurationError e
    /\ spawned (trace p') = spawned (trace p).
Proof.
  intros H. eexists _, _. split.
  - apply loginAndGetSession_missing.
    destruct H as [H | [H | H]]; apply os_Getenv_unset in H; tauto.
  - split; [reflexivity |].
    simpl. rewrite spawned_app. simpl. apply app_nil_r.
Qed.

Lemma loginAndGetSession_missing_secret_witness :
  exists (e : error) (p' : Proc),
    loginAndGetSession (Sample.world Sample.bw_ok (fun _ => Sample.locked))
      Sample.lib (boot (delete "BW_PASSWORD" Sample.secrets))
    = (Ret ("", Some e), p')
    /\ ConfigurationError e
    /\ spawned (trace p') = spawned (trace (boot (delete "BW_PASSWORD" Sample.secrets))).
Proof.
  apply loginAndGetSession_missing_secret.
  right. right. apply lookup_delete_eq.
Defined.

Lemma run_command_eq (W : World) (argv : list string) (p : Proc) :
  run_command W argv p
  = (Ret (next_command W p 0 argv), add_events p [Exec argv]).
Proof. unfold next_command. rewrite Nat.add_0_r. reflexivity. Qed.

Lemma next_command_add_events (W : World) (p : Proc) (es : list Event)
    (i : nat) (argv : list string) :
  next_command W (add_events p es) i argv
  = next_command W p (count is_exec es + i) argv.
Proof.
  unfold next_command. simpl. rewrite count_app, Nat.add_assoc. reflexivity.
Qed.

(** Login and unlock, started when the process has spawned some commands
    already: the first two answers of the world decide. *)
Lemma login_then_unlock_eq (W : World) (L : GoLib) (p : Proc) :
  let login := next_command W p 0 ["bw"; "login"; "--apikey"] in
  let unlock :=
    next_command W p 1
      ["bw"; "unlock"; "--passwordenv"; "BW_PASSWORD"; "--raw"] in
  fst (login_then_unlock W L p)
  = Ret
      match cmd_err login with
      | Some err =>
          ("", Some ("bw login failed: " +:+ cmd_output login
                       +:+ " - " +:+ err))
      | None =>
          match cmd_err unlock with
          | Some err =>
              ("", Some ("bw unlock failed: " +:+ cmd_output unlock
                           +:+ " - " +:+ err))
          | None => (strings_TrimSpace L (cmd_output unlock), None)
          end
      end.
Proof.
  intros login unlock. unfold login_then_unlock.
  unfold mbind, M_bind at 1. rewrite run_command_eq. fold login.
  destruct (cmd_err login) as [err|]; [reflexivity |].
  unfold fmt_Println, emit, mbind, mret, M_bind, M_ret.
  rewrite run_command_eq, !add_events_app, next_command_add_events.
  change (next_command W p _ _) with unlock.
  destruct (cmd_err unlock); reflexivity.
Qed.

Lemma CommandError_unlock (output err : string) :
  CommandError ("bw unlock failed: " +:+ output +:+ " - " +:+ err).
Proof.
  exists "bw unlock", output, err. split; [| reflexivity].
  apply list_elem_of_In. simpl. tauto.
Qed.

(** C6. With the three secrets set, let the world answer the commands of
    the login sequence in the order the program spawns them: the host
    configuration (only when [BW_HOST] is set), the login, the unlock.
    If the configuration and the login exit zero, then: when the unlock
    exits zero too, [loginAndGetSession] returns the unlock output passed
    through [strings.TrimSpace], with no error; when the unlock fails, it
    returns a command error. *)
Theorem loginAndGetSession_unlock_output (W : World) (L : GoLib) (p : Proc) :
  os_Getenv (environ p) "BW_CLIENTID" <> "" ->
  os_Getenv (environ p) "BW_CLIENTSECRET" <> "" ->
  os_Getenv (environ p) "BW_PASSWORD" <> "" ->
  let host := os_Getenv (environ p) "BW_HOST" in
  let configs := if bool_decide (host = "") then 0%nat else 1%nat in
  (host <> "" ->
   cmd_err (next_command W p 0 ["bw"; "config"; "server"; host]) = None) ->
  cmd_err (next_command W p configs ["bw"; "login"; "--apikey"]) = None ->
  let unlock :=
    next_command W p (S configs)
      ["bw"; "unlock"; "--passwordenv"; "BW_PASSWORD"; "--raw"] in
  (cmd_err unlock = None ->
   fst (loginAndGetSession W L p)
   = Ret (strings_TrimSpace L (cmd_output unlock), None))
  /\ (forall err : error,
         cmd_err unlock = Some err ->
         exists e : error,
           fst (loginAndGetSession W L p) = Ret ("", Some e)
           /\ CommandError e).
Proof.
  intros Hid Hsecret Hpw host configs Hconfig Hlogin unlock.
  assert (fst (loginAndGetSession W L p)
          = Ret match cmd_err unlock with
                | Some err =>
                    ("", Some ("bw unlock failed: " +:+ cmd_output unlock
                                 +:+ " - " +:+ err))
                | None => (strings_TrimSpace L (cmd_output unlock), None)
                end) as Hrun.
  { unfold loginAndGetSession.
    unfold fmt_Println, Getenv, emit, reads, mbind, mret, M_bind, M_ret.
    cbn [environ add_events].
    rewrite (bool_decide_eq_false_2 _ Hid),
      (bool_decide_eq_false_2 _ Hsecret), (bool_decide_eq_false_2 _ Hpw).
    cbn [orb]. fold host. subst unlock configs.
    destruct (decide (host = "")) as [Hhost | Hhost].
    - rewrite (bool_decide_eq_false_2 (host <> "")) by tauto.
      rewrite (bool_decide_eq_true_2 _ Hhost) in *.
      rewrite login_then_unlock_eq, !next_command_add_events.
      count_events. rewrite Hlogin. reflexivity.
    - rewrite (bool_decide_eq_true_2 _ Hhost).
      rewrite (bool_decide_eq_false_2 _ Hhost) in *.
      rewrite run_command_eq, !add_events_app, next_command_add_events.
      count_events. rewrite (Hconfig Hhost).
      rewrite login_then_unlock_eq, !next_command_add_events.
      count_events. rewrite Hlogin. reflexivity. }
  rewrite Hrun. split.
  - intros ->. reflexivity.
  - intros err ->. eexists. split; [reflexivity |].
    apply CommandError_unlock.
Qed.

Lemma loginAndGetSession_unlock_output_witness :
  fst (loginAndGetSession
         (Sample.world Sample.bw_ok (fun _ => Sample.locked)) Sample.lib
         (boot (<["BW_HOST" := "https://vault.example"]> Sample.secrets)))
  = Ret ("kZ9vQ==", None)
  /\ exists e : error,
       fst (loginAndGetSession
              (Sample.world Sample.bw_wrong_password (fun _ => Sample.locked))
              Sample.lib (boot Sample.secrets))
       = Ret ("", Some e)
       /\ CommandError e.
Proof.
  split.
  - refine (proj1 (loginAndGetSession_unlock_output
                     (Sample.world Sample.bw_ok (fun _ => Sample.locked))
                     Sample.lib
                     (boot (<["BW_HOST" := "https://vault.example"]>
                              Sample.secrets))
                     _ _ _ _ _) _);
      try (vm_compute; congruence); reflexivity.
  - refine (proj2 (loginAndGetSession_unlock_output
                     (Sample.world Sample.bw_wrong_password
                        (fun _ => Sample.locked))
                     Sample.lib (boot Sample.secrets) _ _ _ _ _)
                  "exit status 1" _);
      try (vm_compute; congruence); reflexivity.
Defined.

(** ** The sync endpoint *)

(** What the [/sync] handler does with a POST request. *)
Lemma sync_post (W : World) (r : Request) (p : Proc) :
  Method r = "POST" ->
  let cmd := next_command W p 0 ["bw"; "sync"] in
  sync W r p
  = match cmd_err cmd with
    | Some _ =>
        (Ret {| Code := 500;
                Body := "Sync failed: " +:+ cmd_output cmd +:+ LF |},
         add_events p
           [Stdout ("Executing 'bw sync'..." +:+ LF);
            Exec ["bw"; "sync"];
            Stderr ("Sync failed: " +:+ cmd_output cmd +:+ LF)])
    | None =>
        (Ret {| Code := 200; Body := "Sync successful" |},
         add_events p
           [Stdout ("Executing 'bw sync'..." +:+ LF);
            Exec ["bw"; "sync"];
            Stdout ("Sync successful." +:+ LF)])
    end.
Proof.
  intros HPOST cmd. unfold sync, MethodPost.
  rewrite bool_decide_eq_false_2 by (rewrite HPOST; auto).
  unfold fmt_Println, eprintf, emit, mbind, mret, M_bind, M_ret.
  rewrite run_command_eq, next_command_add_events. count_events.
  fold cmd.
  destruct (cmd_err cmd); rewrite !add_events_app; cbn [app];
    [| reflexivity].
  reflexivity.
Qed.

Lemma setupRouter_sync (W : World) (r : Request) (p : Proc) :
  Path r = "/sync" -> setupRouter W r p = sync W r p.
Proof. intros Hpath. unfold setupRouter. rewrite Hpath. reflexivity. Qed.

(** C7 as the program has it. For every POST request to [/sync]: if the
    sync command exits zero the reply is 200 with the body
    [Sync successful]; if it fails the reply is 500 and the body is the
    text [Sync failed: ], then the captured combined output, then a line
    feed. *)
Theorem sync_post_reply (W : World) (r : Request) (p : Proc) :
  Path r = "/sync" ->
  Method r = "POST" ->
  let cmd := next_command W p 0 ["bw"; "sync"] in
  (cmd_err cmd = None ->
   fst (setupRouter W r p) = Ret {| Code := 200; Body := "Sync successful" |})
  /\ (forall err : error,
         cmd_err cmd = Some err ->
         fst (setupRouter W r p)
         = Ret {| Code := 500;
                  Body := "Sync failed: " +:+ cmd_output cmd +:+ LF |}).
Proof.
  intros Hpath HPOST cmd. rewrite (setupRouter_sync W r p Hpath).
  pose proof (sync_post W r p HPOST) as Hsync. cbv zeta in Hsync.
  fold cmd in Hsync. rewrite Hsync.
  split.
  - intros ->. reflexivity.
  - intros err ->. reflexivity.
Qed.

Lemma sync_post_reply_witness :
  fst (setupRouter (Sample.world Sample.bw_ok (fun _ => Sample.locked))
         {| Method := "POST"; Path := "/sync" |} (boot ∅))
  = Ret {| Code := 200; Body := "Sync successful" |}
  /\ fst (setupRouter (Sample.world Sample.bw_fails (fun _ => Sample.locked))
            {| Method := "POST"; Path := "/sync" |} (boot ∅))
     = Ret {| Code := 500; Body := "Sync failed: boom" +:+ LF |}.
Proof.
  split.
  - exact (proj1 (sync_post_reply
                    (Sample.world Sample.bw_ok (fun _ => Sample.locked))
                    {| Method := "POST"; Path := "/sync" |} (boot ∅)
                    eq_refl eq_refl) eq_refl).
  - exact (proj2 (sync_post_reply
                    (Sample.world Sample.bw_fails (fun _ => Sample.locked))
                    {| Method := "POST"; Path := "/sync" |} (boot ∅)
                    eq_refl eq_refl) "exit status 1" eq_refl).
Defined.

(** C7 as the specification words it fails: when the sync command prints
    [boom] and exits non-zero, the body of the 500 reply is not the
    captured output [boom] but [Sync failed: boom] and a line feed. *)
Lemma sync_failure_body_is_not_the_output :
  let W := Sample.world Sample.bw_fails (fun _ => Sample.locked) in
  let r := {| Method := "POST"; Path := "/sync" |} in
  let cmd := next_command W (boot ∅) 0 ["bw"; "sync"] in
  cmd_err cmd = Some "exit status 1"
  /\ cmd_output cmd = "boom"
  /\ fst (setupRouter W r (boot ∅))
     = Ret {| Code := 500; Body := "Sync failed: boom" +:+ LF |}
  /\ fst (setupRouter W r (boot ∅))
     <> Ret {| Code := 500; Body := cmd_output cmd |}.
Proof.
  cbv zeta. repeat split; try reflexivity.
  vm_compute. discriminate.
Qed.

(** C8. A request to [/sync] with any method other than POST gets 405,
    whatever the world would answer, and leaves the process as it was:
    no command is spawned. *)
Theorem sync_wrong_method (W : World) (r : Request) (p : Proc) :
  Path r = "/sync" ->
  Method r <> "POST" ->
  setupRouter W r p
  = (Ret {| Code := 405; Body := "Method not allowed" +:+ LF |}, p)
  /\ spawned (trace (snd (setupRouter W r p))) = spawned (trace p).
Proof.
  intros Hpath Hmethod.
  assert (setupRouter W r p
          = (Ret {| Code := 405; Body := "Method not allowed" +:+ LF |}, p))
    as ->.
  { rewrite (setupRouter_sync W r p Hpath).
    unfold sync, MethodPost. rewrite (bool_decide_eq_true_2 _ Hmethod).
    reflexivity. }
  split; reflexivity.
Qed.

Lemma sync_wrong_method_witness :
  setupRouter (Sample.world Sample.bw_fails (fun _ => Sample.locked))
    {| Method := "GET"; Path := "/sync" |} (boot ∅)
  = (Ret {| Code := 405; Body := "Method not allowed" +:+ LF |}, boot ∅).
Proof.
  refine (proj1 (sync_wrong_method _ {| Method := "GET"; Path := "/sync" |}
                   (boot ∅) eq_refl _)).
  simpl. discriminate.
Defined.

(** ** The readiness poller *)

Lemma http_Get_eq (W : World) (url : string) (p : Proc) :
  http_Get W url p = (Ret (next_get W p 0 url), add_events p [HttpGet url]).
Proof. unfold next_get. rewrite Nat.add_0_r. reflexivity. Qed.

Lemma next_get_add_events (W : World) (p : Proc) (es : list Event)
    (i : nat) (url : string) :
  next_get W (add_events p es) i url
  = next_get W p (count is_get es + i) url.
Proof.
  unfold next_get. simpl. rewrite count_app, Nat.add_assoc. reflexivity.
Qed.

(** One turn of the loop: the answer to the next GET decides between
    returning and pausing before the remaining turns. *)
Lemma poll_S (W : World) (L : GoLib) (url : string) (n : nat) (p : Proc) :
  poll W L url (S n) p
  = if attempt_unlocked L (next_get W p 0 url)
    then (Ret None, add_events p [HttpGet url])
    else poll W L url n
           (add_events p [HttpGet url; Sleep (bwServeWaitInterval p)]).
Proof.
  cbn [poll]. unfold mbind, M_bind at 1. rewrite http_Get_eq.
  destruct (attempt_unlocked L (next_get W p 0 url)); [reflexivity |].
  unfold time_Sleep, emit, reads, mbind, M_bind.
  rewrite add_events_app. reflexivity.
Qed.

(** If none of the next [n] answers shows an unlocked vault, the loop
    makes [n] attempts, pauses after each, and times out. *)
Lemma poll_exhausts (W : World) (L : GoLib) (url : string) (n : nat) :
  forall p : Proc,
    (forall i : nat,
        (i < n)%nat -> attempt_unlocked L (next_get W p i url) = false) ->
    poll W L url n p
    = (Ret (Some "timeout waiting for bw serve to become unlocked"),
       add_events p (rounds url (bwServeWaitInterval p) n)).
Proof.
  induction n as [|n IH]; intros p H.
  - cbn [poll]. unfold rounds. simpl concat. rewrite add_events_nil.
    reflexivity.
  - rewrite poll_S, (H 0%nat) by lia.
    rewrite IH.
    + rewrite add_events_app. reflexivity.
    + intros i Hi. rewrite next_get_add_events. count_events.
      apply (H (S i)). lia.
Qed.

(** If the [k]-th of the next answers is the first to show an unlocked
    vault, the loop returns on it, after [k] pauses. *)
Lemma poll_first_unlocked (W : World) (L : GoLib) (url : string) (n : nat) :
  forall (p : Proc) (k : nat),
    (k < n)%nat ->
    (forall j : nat,
        (j < k)%nat -> attempt_unlocked L (next_get W p j url) = false) ->
    attempt_unlocked L (next_get W p k url) = true ->
    poll W L url n p
    = (Ret None,
       add_events p (rounds url (bwServeWaitInterval p) k ++ [HttpGet url])).
Proof.
  induction n as [|n IH]; intros p k Hk Hbefore Hat; [lia |].
  rewrite poll_S. destruct k as [|k].
  - rewrite Hat. reflexivity.
  - rewrite (Hbefore 0%nat) by lia.
    rewrite (IH _ k).
    + rewrite add_events_app. reflexivity.
    + lia.
    + intros j Hj. rewrite next_get_add_events. count_events.
      apply (Hbefore (S j)). lia.
    + rewrite next_get_add_events. count_events. exact Hat.
Qed.

(** The least index at which a test on the naturals succeeds. *)
Lemma least_true (f : nat -> bool) (k : nat) :
  f k = true ->
  exists m : nat,
    (m <= k)%nat /\ f m = true /\ forall j : nat, (j < m)%nat -> f j = false.
Proof.
  intros Hk.
  assert (forall n : nat,
             (exists m : nat,
                 (m < n)%nat /\ f m = true
                 /\ forall j : nat, (j < m)%nat -> f j = false)
             \/ (forall j : nat, (j < n)%nat -> f j = false)) as H.
  { induction n as [|n [IH | IH]].
    - right. intros j Hj. lia.
    - left. destruct IH as (m & Hm & Hf & Hlt). exists m. auto with lia.
    - destruct (f n) eqn:En.
      + left. exists n. auto with lia.
      + right. intros j Hj.
        destruct (decide (j = n)) as [-> | Hne]; [exact En |].
        apply IH. lia. }
  destruct (H (S k)) as [(m & Hm & Hf & Hlt) | Hnone].
  - exists m. auto with lia.
  - rewrite Hnone in Hk by lia. discriminate.
Qed.

Lemma failed_attempt_not_unlocked (L : GoLib) (r : HttpResult) :
  failed_attempt L r -> attempt_unlocked L r = false.
Proof.
  destruct r as [err | code body ioErr]; [reflexivity |].
  intros [Hcode | Hjson]; simpl.
  - rewrite (bool_decide_eq_false_2 _ Hcode). reflexivity.
  - rewrite Hjson. destruct (_ && _); reflexivity.
Qed.

Lemma unlocked_payload_iff (L : GoLib) (r : HttpResult) :
  unlocked_payload L r <-> attempt_unlocked L r = true.
Proof.
  split.
  - intros (body & v & -> & Hjson & Hv). simpl. rewrite Hjson. exact Hv.
  - destruct r as [err | code body ioErr]; simpl; [discriminate |].
    destruct (bool_decide (code = 200)) eqn:Ecode; [| discriminate].
    destruct (bool_decide (ioErr = None)) eqn:Eio; [| discriminate].
    apply bool_decide_eq_true in Ecode, Eio. subst code ioErr.
    simpl. destruct (json_Unmarshal L body) as [v|] eqn:Ejson;
      [| discriminate].
    intros Hv. exists body, v. auto.
Qed.

Lemma waitForBwServe_eq (W : World) (L : GoLib) (port : string) (p : Proc) :
  waitForBwServe W L port p
  = poll W L ("http://127.0.0.1:" +:+ port +:+ "/status")
      (Z.to_nat (bwServeWaitRetries p))
      (add_events p
         [Stdout ("Waiting for 'bw serve' to become ready and unlocked..."
                    +:+ LF)]).
Proof. reflexivity. Qed.

Lemma not_unlocked_payload (L : GoLib) (r : HttpResult) :
  ~ unlocked_payload L r -> attempt_unlocked L r = false.
Proof.
  intros H. destruct (attempt_unlocked L r) eqn:E; [| reflexivity].
  exfalso. apply H, unlocked_payload_iff, E.
Qed.

(** C3. An attempt that ends in a network error, in a status other than
    200 or in a body that is not valid JSON is an attempt that did not
    succeed. In a run in which no attempt within the retry count
    succeeds, [waitForBwServe] announces itself, makes one GET and one
    pause per unit of [bwServeWaitRetries] and nothing else, and returns
    the timeout error: failures are counted by the loop counter alone,
    and the number of attempts is exactly the retry count (none when the
    count is negative). *)
Theorem waitForBwServe_exhausts (W : World) (L : GoLib) (port : string)
    (p : Proc) :
  let url := "http://127.0.0.1:" +:+ port +:+ "/status" in
  let n := Z.to_nat (bwServeWaitRetries p) in
  (forall r : HttpResult, failed_attempt L r -> ~ unlocked_payload L r)
  /\ ((forall i : nat,
          (i < n)%nat -> ~ unlocked_payload L (next_get W p i url)) ->
      exists (e : error) (es : list Event),
        waitForBwServe W L port p = (Ret (Some e), add_events p es)
        /\ TimeoutError e
        /\ es = Stdout ("Waiting for 'bw serve' to become ready and unlocked..."
                          +:+ LF)
                :: rounds url (bwServeWaitInterval p) n
        /\ Z.of_nat (count is_get es) = Z.max 0 (bwServeWaitRetries p)
        /\ sleeps es = replicate n (bwServeWaitInterval p)).
Proof.
  intros url n. split.
  { intros r Hfailed Hunlocked. apply unlocked_payload_iff in Hunlocked.
    rewrite (failed_attempt_not_unlocked L r Hfailed) in Hunlocked.
    discriminate. }
  intros Hnone. eexists _, _. split; [| split; [| split]].
  - rewrite waitForBwServe_eq. fold url n. rewrite poll_exhausts.
    + rewrite add_events_app. reflexivity.
    + intros i Hi. rewrite next_get_add_events. count_events.
      apply not_unlocked_payload, Hnone, Hi.
  - reflexivity.
  - reflexivity.
  - split.
    + rewrite count_app, count_get_rounds. subst n.
      rewrite count_cons, count_nil. cbn [is_get]. lia.
    + rewrite sleeps_app, sleeps_rounds. reflexivity.
Qed.

Lemma waitForBwServe_exhausts_witness :
  let W :=
    Sample.world Sample.bw_ok
      (fun n => match n with
                | O => NetError "connection refused"
                | 1%nat => Response 503 "" None
                | 2%nat => Response 200 "<html>" None
                | _ => Sample.locked
                end) in
  let p :=
    {| environ := ∅; bwServeWaitRetries := 4;
       bwServeWaitInterval := 10000000; trace := [] |} in
  exists (e : error) (es : list Event),
    waitForBwServe W Sample.lib "8088" p = (Ret (Some e), add_events p es)
    /\ TimeoutError e
    /\ es = Stdout ("Waiting for 'bw serve' to become ready and unlocked..."
                      +:+ LF)
            :: rounds "http://127.0.0.1:8088/status" 10000000 4
    /\ Z.of_nat (count is_get es) = 4
    /\ sleeps es = [10000000; 10000000; 10000000; 10000000].
Proof.
  intros W p.
  refine (proj2 (waitForBwServe_exhausts W Sample.lib "8088" p) _).
  intros i Hi Hunlocked. apply unlocked_payload_iff in Hunlocked.
  destruct i as [|[|[|i]]]; vm_compute in Hunlocked; discriminate.
Defined.

(** C4. If some attempt within the retry count gets a status payload
    that satisfies the unlock predicate, [waitForBwServe] returns success
    on the first such attempt [m]: after the GET of that attempt nothing
    more happens, so it has paused [m] times, once after each earlier
    attempt, and not once for the attempts that remain. Against a server
    whose every answer is unlocked, and with a retry count of at least
    one, it returns success after a single GET and no pause. *)
Theorem waitForBwServe_returns_on_unlock (W : World) (L : GoLib)
    (port : string) (p : Proc) :
  let url := "http://127.0.0.1:" +:+ port +:+ "/status" in
  let n := Z.to_nat (bwServeWaitRetries p) in
  let hello :=
    Stdout ("Waiting for 'bw serve' to become ready and unlocked..." +:+ LF) in
  (forall k : nat,
      (k < n)%nat ->
      unlocked_payload L (next_get W p k url) ->
      exists m : nat,
        (m <= k)%nat
        /\ unlocked_payload L (next_get W p m url)
        /\ (forall j : nat,
               (j < m)%nat -> ~ unlocked_payload L (next_get W p j url))
        /\ waitForBwServe W L port p
           = (Ret None,
              add_events p
                (hello :: rounds url (bwServeWaitInterval p) m
                   ++ [HttpGet url])))
  /\ (0 < bwServeWaitRetries p ->
      (forall i : nat, unlocked_payload L (next_get W p i url)) ->
      waitForBwServe W L port p
      = (Ret None, add_events p [hello; HttpGet url])).
Proof.
  intros url n hello.
  assert (forall m : nat,
             (m < n)%nat ->
             attempt_unlocked L (next_get W p m url) = true ->
             (forall j : nat,
                 (j < m)%nat ->
                 attempt_unlocked L (next_get W p j url) = false) ->
             waitForBwServe W L port p
             = (Ret None,
                add_events p
                  (hello :: rounds url (bwServeWaitInterval p) m
                     ++ [HttpGet url]))) as Hfirst.
  { intros m Hm Hat Hbefore.
    rewrite waitForBwServe_eq. fold url n.
    rewrite (poll_first_unlocked W L url n _ m Hm).
    - rewrite add_events_app. reflexivity.
    - intros j Hj. rewrite next_get_add_events. count_events.
      apply Hbefore, Hj.
    - rewrite next_get_add_events. count_events. exact Hat. }
  split.
  - intros k Hk Hunlocked. apply unlocked_payload_iff in Hunlocked.
    destruct (least_true
                (fun i => attempt_unlocked L (next_get W p i url)) k
                Hunlocked) as (m & Hmk & Hat & Hbefore).
    exists m. split; [exact Hmk |]. split; [| split].
    + apply unlocked_payload_iff, Hat.
    + intros j Hj Hu. apply unlocked_payload_iff in Hu.
      rewrite (Hbefore j Hj) in Hu. discriminate.
    + apply Hfirst; [lia | exact Hat | exact Hbefore].
  - intros Hpos Halways.
    apply (Hfirst 0%nat).
    + subst n. lia.
    + apply unlocked_payload_iff, Halways.
    + intros j Hj. lia.
Qed.

Lemma waitForBwServe_returns_on_unlock_witness :
  let W := Sample.world Sample.bw_ok (fun _ => Sample.unlocked) in
  waitForBwServe W Sample.lib "8088" (boot ∅)
  = (Ret None,
     add_events (boot ∅)
       [Stdout ("Waiting for 'bw serve' to become ready and unlocked..."
                  +:+ LF);
        HttpGet "http://127.0.0.1:8088/status"]).
Proof.
  intros W.
  refine (proj2 (waitForBwServe_returns_on_unlock W Sample.lib "8088"
                   (boot ∅)) _ _).
  - simpl. lia.
  - intros i. exists (Sample.status_body "unlocked"),
      (Sample.status_value "unlocked").
    repeat split; vm_compute; reflexivity.
Defined.

(** The loop looks at the trace and at the two package variables of the
    process, not at its environment. *)
Lemma poll_ignores_environ (W : World) (L : GoLib) (url : string) (n : nat) :
  forall p q : Proc,
    trace p = trace q ->
    bwServeWaitInterval p = bwServeWaitInterval q ->
    fst (poll W L url n p) = fst (poll W L url n q)
    /\ trace (snd (poll W L url n p)) = trace (snd (poll W L url n q)).
Proof.
  induction n as [|n IH]; intros p q Htrace Hinterval.
  - cbn [poll]. split; [reflexivity | exact Htrace].
  - rewrite !poll_S.
    assert (next_get W p 0 url = next_get W q 0 url) as ->
      by (unfold next_get; rewrite Htrace; reflexivity).
    destruct (attempt_unlocked L (next_get W q 0 url)).
    + split; [reflexivity |]. simpl. rewrite Htrace. reflexivity.
    + apply IH; simpl; rewrite ?Htrace, ?Hinterval; reflexivity.
Qed.

(** The retry policy of a freshly started process: at most 30 attempts,
    one second apart, whatever its environment holds. [waitForBwServe]
    takes both numbers from the package variables, which nothing in
    [main.go] ever assigns, and two processes started in different
    environments poll alike, with the same result and the same trace. *)
Theorem poll_policy_fixed_at_boot (W : World) (L : GoLib) (port : string) :
  forall env : gmap string string,
    bwServeWaitRetries (boot env) = 30
    /\ bwServeWaitInterval (boot env) = 1000000000
    /\ forall env' : gmap string string,
         fst (waitForBwServe W L port (boot env'))
         = fst (waitForBwServe W L port (boot env))
         /\ trace (snd (waitForBwServe W L port (boot env')))
            = trace (snd (waitForBwServe W L port (boot env))).
Proof.
  intros env. split; [reflexivity |]. split; [reflexivity |].
  intros env'. rewrite !waitForBwServe_eq.
  apply poll_ignores_environ; reflexivity.
Qed.

(** C2. The retry policy defaults to 30 attempts one second apart and
    is meant to be overridable through the environment: the tests of the
    repository set [BW_SERVE_WAIT_RETRIES] and [BW_SERVE_WAIT_INTERVAL]
    before they poll. [waitForBwServe] as written does not honour them:
    with the retry count set to 2 and the interval to 10ms in the
    environment, a poller facing a vault that stays locked still makes 30
    attempts and pauses a full second after each. *)
Lemma poll_policy_not_overridden_by_environment :
  let W := Sample.world Sample.bw_ok (fun _ => Sample.locked) in
  let run := waitForBwServe W Sample.lib "8088" (boot Sample.poll_overrides) in
  Sample.poll_overrides !! "BW_SERVE_WAIT_RETRIES" = Some "2"
  /\ Sample.poll_overrides !! "BW_SERVE_WAIT_INTERVAL" = Some "10ms"
  /\ fst run = Ret (Some "timeout waiting for bw serve to become unlocked")
  /\ count is_get (trace (snd run)) = 30%nat
  /\ count is_get (trace (snd run)) <> 2%nat
  /\ sleeps (trace (snd run)) = replicate 30 1000000000
  /\ sleeps (trace (snd run)) <> replicate 2 10000000.
Proof.
  cbv zeta. repeat split; try (vm_compute; reflexivity);
    vm_compute; discriminate.
Qed.

(** ** The periodic sync *)



Lemma time_NewTicker_positive (d : Z) (p : Proc) :
  0 < d -> time_NewTicker d p = (Ret tt, add_events p [NewTicker d]).
Proof.
  intros Hd. unfold time_NewTicker.
  rewrite bool_decide_eq_false_2 by lia. reflexivity.
Qed.



(** * Further properties *)

(** ** Login, command by command *)

Lemma fetched_app (t t' : list Event) :
  fetched (t ++ t') = fetched t ++ fetched t'.
Proof. apply omap_app. Qed.

Lemma posted_app (t t' : list Event) :
  posted (t ++ t') = posted t ++ posted t'.
Proof. apply omap_app. Qed.

Lemma complaints_app (t t' : list Event) :
  complaints (t ++ t') = complaints t ++ complaints t'.
Proof. apply omap_app. Qed.

(** Login and unlock with the state they leave behind. *)
Lemma login_then_unlock_run (W : World) (L : GoLib) (p : Proc) :
  let login := next_command W p 0 ["bw"; "login"; "--apikey"] in
  let unlock :=
    next_command W p 1
      ["bw"; "unlock"; "--passwordenv"; "BW_PASSWORD"; "--raw"] in
  login_then_unlock W L p
  = match cmd_err login with
    | Some err =>
        (Ret ("", Some ("bw login failed: " +:+ cmd_output login
                          +:+ " - " +:+ err)),
         add_events p [Exec ["bw"; "login"; "--apikey"]])
    | None =>
        (Ret match cmd_err unlock with
             | Some err =>
                 ("", Some ("bw unlock failed: " +:+ cmd_output unlock
                              +:+ " - " +:+ err))
             | None => (strings_TrimSpace L (cmd_output unlock), None)
             end,
         add_events p
           [Exec ["bw"; "login"; "--apikey"];
            Stdout ("Logged in successfully" +:+ LF);
            Stdout ("Unlocking vault..." +:+ LF);
            Exec ["bw"; "unlock"; "--passwordenv"; "BW_PASSWORD"; "--raw"]])
    end.
Proof.
  intros login unlock. unfold login_then_unlock.
  unfold mbind, M_bind at 1. rewrite run_command_eq. fold login.
  destruct (cmd_err login) as [err|]; [reflexivity |].
  unfold fmt_Println, emit, mbind, mret, M_bind, M_ret.
  rewrite run_command_eq, !add_events_app, next_command_add_events.
  change (next_command W p _ _) with unlock.
  destruct (cmd_err unlock); reflexivity.
Qed.

(** The whole of [loginAndGetSession] when the three secrets are there. *)
Lemma loginAndGetSession_run (W : World) (L : GoLib) (p : Proc) :
  os_Getenv (environ p) "BW_CLIENTID" <> "" ->
  os_Getenv (environ p) "BW_CLIENTSECRET" <> "" ->
  os_Getenv (environ p) "BW_PASSWORD" <> "" ->
  let host := os_Getenv (environ p) "BW_HOST" in
  let hello := Stdout ("Executing Bitwarden login..." +:+ LF) in
  let config := next_command W p 0 ["bw"; "config"; "server"; host] in
  loginAndGetSession W L p
  = if bool_decide (host <> "") then
      let es :=
        [hello;
         Stdout ("Configuring bw-cli to use the supplied host " +:+ host
                   +:+ LF);
         Exec ["bw"; "config"; "server"; host]] in
      match cmd_err config with
      | Some err =>
          (Ret ("", Some ("bw config server failed: " +:+ cmd_output config
                            +:+ " - " +:+ err)),
           add_events p es)
      | None => login_then_unlock W L (add_events p es)
      end
    else login_then_unlock W L (add_events p [hello]).
Proof.
  intros Hid Hsecret Hpw host hello config. unfold loginAndGetSession.
  unfold fmt_Println, Getenv, emit, reads, mbind, mret, M_bind, M_ret.
  cbn [environ add_events].
  rewrite (bool_decide_eq_false_2 _ Hid),
    (bool_decide_eq_false_2 _ Hsecret), (bool_decide_eq_false_2 _ Hpw).
  cbn [orb]. fold host.
  destruct (bool_decide (host <> "")); [| reflexivity].
  rewrite run_command_eq, !add_events_app, next_command_add_events.
  count_events. fold config.
  destruct (cmd_err config); reflexivity.
Qed.

Lemma CommandError_login (output err : string) :
  CommandError ("bw login failed: " +:+ output +:+ " - " +:+ err).
Proof.
  exists "bw login", output, err. split; [| reflexivity].
  apply list_elem_of_In. simpl. tauto.
Qed.

Lemma CommandError_config (output err : string) :
  CommandError ("bw config server failed: " +:+ output +:+ " - " +:+ err).
Proof.
  exists "bw config server", output, err. split; [| reflexivity].
  apply list_elem_of_In. simpl. tauto.
Qed.

Lemma CommandError_not_ConfigurationError (e : error) :
  CommandError e -> ~ ConfigurationError e.
Proof.
  intros (step & output & err & Hstep & ->) Hconfig.
  unfold ConfigurationError in Hconfig.
  apply list_elem_of_In in Hstep. simpl in Hstep.
  destruct Hstep as [<- | [<- | [<- | []]]]; simpl in Hconfig; discriminate.
Qed.

Lemma secrets_present_dec (env : gmap string string) :
  (os_Getenv env "BW_CLIENTID" = ""
   \/ os_Getenv env "BW_CLIENTSECRET" = ""
   \/ os_Getenv env "BW_PASSWORD" = "")
  \/ (os_Getenv env "BW_CLIENTID" <> ""
      /\ os_Getenv env "BW_CLIENTSECRET" <> ""
      /\ os_Getenv env "BW_PASSWORD" <> "").
Proof.
  destruct (decide (os_Getenv env "BW_CLIENTID" = "")); [tauto |].
  destruct (decide (os_Getenv env "BW_CLIENTSECRET" = "")); [tauto |].
  destruct (decide (os_Getenv env "BW_PASSWORD" = "")); tauto.
Qed.

(** Login always comes back to its caller, having only added to the
    trace; a failure carries no token and is of one of the two kinds; the
    commands it spawned are the first few of the login sequence, and all
    of them when it succeeded. *)
Lemma loginAndGetSession_shape (W : World) (L : GoLib) (p : Proc) :
  exists (token : string) (err : option error) (es : list Event) (k : nat),
    loginAndGetSession W L p = (Ret (token, err), add_events p es)
    /\ spawned es
       = take k (login_commands (os_Getenv (environ p) "BW_HOST"))
    /\ fetched es = [] /\ posted es = []
    /\ match err with
       | Some e =>
           token = "" /\ (ConfigurationError e \/ CommandError e)
           /\ (ConfigurationError e -> k = 0%nat)
       | None =>
           k = length (login_commands (os_Getenv (environ p) "BW_HOST"))
       end.
Proof.
  destruct (secrets_present_dec (environ p)) as [Hmissing | (Hid & Hs & Hpw)].
  - rewrite (loginAndGetSession_missing W L p Hmissing).
    eexists _, _, _, 0%nat. split; [reflexivity |].
    repeat split; try reflexivity. left. reflexivity.
  - rewrite (loginAndGetSession_run W L p Hid Hs Hpw). cbv zeta.
    unfold login_commands.
    set (host := os_Getenv (environ p) "BW_HOST").
    destruct (bool_decide (host <> "")).
    + destruct (cmd_err (next_command W p 0 _)) as [err|].
      * eexists _, _, _, 1%nat. split; [reflexivity |].
        repeat split; try reflexivity.
        -- right. apply CommandError_config.
        -- intros H. exfalso.
           exact (CommandError_not_ConfigurationError _
                    (CommandError_config _ _) H).
      * rewrite login_then_unlock_run. cbv zeta.
        destruct (cmd_err (next_command W _ 0 _)) as [err|].
        -- rewrite add_events_app.
           eexists _, _, _, 2%nat. split; [reflexivity |].
           repeat split; try reflexivity.
           ++ right. apply CommandError_login.
           ++ intros H. exfalso.
              exact (CommandError_not_ConfigurationError _
                       (CommandError_login _ _) H).
        -- rewrite add_events_app.
           destruct (cmd_err (next_command W _ 1 _)) as [err|].
           ++ eexists _, _, _, 3%nat. split; [reflexivity |].
              repeat split; try reflexivity.
              ** right. apply CommandError_unlock.
              ** intros H. exfalso.
                 exact (CommandError_not_ConfigurationError _
                          (CommandError_unlock _ _) H).
           ++ eexists _, _, _, 3%nat. split; [reflexivity |].
              repeat split; reflexivity.
    + rewrite login_then_unlock_run. cbv zeta.
      destruct (cmd_err (next_command W _ 0 _)) as [err|].
      * rewrite add_events_app.
        eexists _, _, _, 1%nat. split; [reflexivity |].
        repeat split; try reflexivity.
        -- right. apply CommandError_login.
        -- intros H. exfalso.
           exact (CommandError_not_ConfigurationError _
                    (CommandError_login _ _) H).
      * rewrite add_events_app.
        destruct (cmd_err (next_command W _ 1 _)) as [err|].
        -- eexists _, _, _, 2%nat. split; [reflexivity |].
           repeat split; try reflexivity.
           ++ right. apply CommandError_unlock.
           ++ intros H. exfalso.
              exact (CommandError_not_ConfigurationError _
                       (CommandError_unlock _ _) H).
        -- eexists _, _, _, 2%nat. split; [reflexivity |].
           repeat split; reflexivity.
Qed.

(** Login and unlock in two worlds whose commands answer alike. *)
Lemma login_then_unlock_same_answers (W W' : World) (L : GoLib)
    (p q : Proc) :
  trace p = trace q ->
  (forall (i : nat) (argv : list string),
      next_command W p i argv = next_command W' q i argv) ->
  fst (login_then_unlock W L p) = fst (login_then_unlock W' L q)
  /\ trace (snd (login_then_unlock W L p))
     = trace (snd (login_then_unlock W' L q)).
Proof.
  intros Htrace Hsame. rewrite !login_then_unlock_run. cbv zeta.
  rewrite !Hsame.
  destruct (cmd_err (next_command W' q 0 _)); simpl; rewrite Htrace; auto.
Qed.

(** With the three secrets there, every error of the login is the error
    of a command. *)
Lemma loginAndGetSession_present_errors (W : World) (L : GoLib) (p : Proc)
    (token : string) (e : error) :
  os_Getenv (environ p) "BW_CLIENTID" <> "" ->
  os_Getenv (environ p) "BW_CLIENTSECRET" <> "" ->
  os_Getenv (environ p) "BW_PASSWORD" <> "" ->
  fst (loginAndGetSession W L p) = Ret (token, Some e) ->
  CommandError e.
Proof.
  intros Hid Hs Hpw. rewrite (loginAndGetSession_run W L p Hid Hs Hpw).
  cbv zeta.
  assert (forall q : Proc,
             fst (login_then_unlock W L q) = Ret (token, Some e) ->
             CommandError e) as Hrest.
  { intros q. rewrite login_then_unlock_run. cbv zeta.
    destruct (cmd_err (next_command W q 0 _)); simpl.
    - intros [= _ <-]. apply CommandError_login.
    - destruct (cmd_err (next_command W q 1 _)); intros [= _ <-].
      apply CommandError_unlock. }
  destruct (bool_decide _); [| apply Hrest].
  destruct (cmd_err (next_command W p 0 _)); [| apply Hrest].
  simpl. intros [= _ <-]. apply CommandError_config.
Qed.

(** X1. [loginAndGetSession] reports the configuration error exactly
    when the client id, the client secret or the unlock password reads
    as the empty string, which is the case for a variable that is not
    set and for one that is set to nothing; it then has spawned no
    command and written one line. *)
Theorem loginAndGetSession_configuration_error_iff (W : World) (L : GoLib)
    (p : Proc) :
  ((exists (token : string) (e : error),
       fst (loginAndGetSession W L p) = Ret (token, Some e)
       /\ ConfigurationError e)
   <-> (os_Getenv (environ p) "BW_CLIENTID" = ""
        \/ os_Getenv (environ p) "BW_CLIENTSECRET" = ""
        \/ os_Getenv (environ p) "BW_PASSWORD" = ""))
  /\ forall key : string,
       key ∈ ["BW_CLIENTID"; "BW_CLIENTSECRET"; "BW_PASSWORD"] ->
       environ p !! key = Some "" ->
       snd (loginAndGetSession W L p)
       = add_events p [Stdout ("Executing Bitwarden login..." +:+ LF)].
Proof.
  split.
  - split.
    + intros (token & e & Hrun & Hconfig).
      destruct (secrets_present_dec (environ p))
        as [Hmissing | (Hid & Hs & Hpw)]; [exact Hmissing |].
      exfalso.
      apply (CommandError_not_ConfigurationError e); [| exact Hconfig].
      exact (loginAndGetSession_present_errors W L p token e
               Hid Hs Hpw Hrun).
    + intros Hmissing. rewrite (loginAndGetSession_missing W L p Hmissing).
      eexists _, _. split; reflexivity.
  - intros key Hkey Hempty.
    rewrite (loginAndGetSession_missing W L p); [reflexivity |].
    apply list_elem_of_In in Hkey. simpl in Hkey.
    unfold os_Getenv.
    destruct Hkey as [<- | [<- | [<- | []]]]; rewrite Hempty; simpl; tauto.
Qed.

Lemma loginAndGetSession_configuration_error_iff_witness :
  snd (loginAndGetSession
         (Sample.world Sample.bw_ok (fun _ => Sample.locked)) Sample.lib
         (boot (<["BW_CLIENTSECRET" := ""]> Sample.secrets)))
  = add_events (boot (<["BW_CLIENTSECRET" := ""]> Sample.secrets))
      [Stdout ("Executing Bitwarden login..." +:+ LF)].
Proof.
  refine (proj2 (loginAndGetSession_configuration_error_iff _ _ _)
                "BW_CLIENTSECRET" _ _).
  - apply list_elem_of_In. simpl. tauto.
  - vm_compute. reflexivity.
Defined.

(** X2. Whatever the environment and the commands do,
    [loginAndGetSession] comes back to its caller: it neither exits nor
    panics and leaves the environment and the package variables alone.
    When it reports an error the token it returns is empty and the error
    is the configuration error or the error of a command. *)
Theorem loginAndGetSession_failure_is_classified (W : World) (L : GoLib)
    (p : Proc) :
  exists (token : string) (err : option error) (es : list Event),
    loginAndGetSession W L p = (Ret (token, err), add_events p es)
    /\ forall e : error,
         err = Some e ->
         token = "" /\ (ConfigurationError e \/ CommandError e).
Proof.
  destruct (loginAndGetSession_shape W L p)
    as (token & err & es & k & Hrun & _ & _ & _ & Herr).
  exists token, err, es. split; [exact Hrun |].
  intros e ->. destruct Herr as (Htoken & Hkind & _). auto.
Qed.

(** X3. The commands [loginAndGetSession] spawns are always the first
    few of the sequence: host configuration (when [BW_HOST] is not
    empty), login, unlock, in this order and each at most once. On success
    it has run the whole sequence, on the configuration error none of it;
    and it never sends an HTTP request. *)
Theorem loginAndGetSession_spawns_prefix (W : World) (L : GoLib) (p : Proc) :
  let plan := login_commands (os_Getenv (environ p) "BW_HOST") in
  let result := loginAndGetSession W L p in
  exists (es : list Event) (k : nat),
    snd result = add_events p es
    /\ spawned es = take k plan
    /\ fetched es = [] /\ posted es = []
    /\ (forall token : string,
           fst result = Ret (token, None) -> spawned es = plan)
    /\ (forall (token : string) (e : error),
           fst result = Ret (token, Some e) ->
           ConfigurationError e -> spawned es = []).
Proof.
  intros plan result. subst result plan.
  destruct (loginAndGetSession_shape W L p)
    as (token & err & es & k & Hrun & Hspawned & Hget & Hpost & Herr).
  exists es, k. rewrite Hrun. simpl.
  split; [reflexivity |]. split; [exact Hspawned |].
  split; [exact Hget |]. split; [exact Hpost |]. split.
  - intros token' [= _ Hnone]. rewrite Hnone in Herr. subst k.
    rewrite Hspawned. apply firstn_all.
  - intros token' e [= _ Hsome] Hconfig. rewrite Hsome in Herr.
    destruct Herr as (_ & _ & Hk). rewrite Hspawned, (Hk Hconfig).
    reflexivity.
Qed.

(** X4. The first command that fails ends the login. With the secrets
    there: when the host configuration fails, the error carries its
    output and it is the only command spawned; when the login fails
    (after a successful configuration, if any), the error carries the
    output of the login and the unlock is never spawned. *)
Theorem loginAndGetSession_first_failure_is_final (W : World) (L : GoLib)
    (p : Proc) :
  os_Getenv (environ p) "BW_CLIENTID" <> "" ->
  os_Getenv (environ p) "BW_CLIENTSECRET" <> "" ->
  os_Getenv (environ p) "BW_PASSWORD" <> "" ->
  let host := os_Getenv (environ p) "BW_HOST" in
  let configs := if bool_decide (host = "") then [] else
                   [["bw"; "config"; "server"; host]] in
  let config := next_command W p 0 ["bw"; "config"; "server"; host] in
  let login :=
    next_command W p (length configs) ["bw"; "login"; "--apikey"] in
  let result := loginAndGetSession W L p in
  (forall err : error,
      host <> "" -> cmd_err config = Some err ->
      fst result
      = Ret ("", Some ("bw config server failed: " +:+ cmd_output config
                         +:+ " - " +:+ err))
      /\ spawned (trace (snd result))
         = spawned (trace p) ++ [["bw"; "config"; "server"; host]])
  /\ (forall err : error,
         (host <> "" -> cmd_err config = None) ->
         cmd_err login = Some err ->
         fst result
         = Ret ("", Some ("bw login failed: " +:+ cmd_output login
                            +:+ " - " +:+ err))
         /\ spawned (trace (snd result))
            = spawned (trace p) ++ configs ++ [["bw"; "login"; "--apikey"]]).
Proof.
  intros Hid Hs Hpw host configs config login result. subst result.
  rewrite (loginAndGetSession_run W L p Hid Hs Hpw). cbv zeta.
  fold host. fold config. split.
  - intros err Hhost Herr. rewrite (bool_decide_eq_true_2 _ Hhost), Herr.
    simpl. rewrite spawned_app. split; reflexivity.
  - intros err Hconfig Hlogin. subst login configs.
    destruct (decide (host = "")) as [Hhost | Hhost].
    + rewrite (bool_decide_eq_false_2 (host <> "")) by tauto.
      rewrite (bool_decide_eq_true_2 _ Hhost) in *. simpl length in Hlogin.
      rewrite login_then_unlock_run. cbv zeta.
      rewrite !next_command_add_events. count_events. rewrite Hlogin.
      rewrite add_events_app. cbn [fst snd trace add_events app].
      rewrite spawned_app. split; reflexivity.
    + rewrite (bool_decide_eq_true_2 _ Hhost), (Hconfig Hhost).
      rewrite (bool_decide_eq_false_2 _ Hhost) in *. simpl length in Hlogin.
      rewrite login_then_unlock_run. cbv zeta.
      rewrite !next_command_add_events. count_events. rewrite Hlogin.
      rewrite add_events_app. cbn [fst snd trace add_events app].
      rewrite spawned_app. split; reflexivity.
Qed.

Lemma loginAndGetSession_first_failure_is_final_witness :
  let result :=
    loginAndGetSession
      (Sample.world Example.bw_login_refused (fun _ => Sample.locked))
      Sample.lib
      (boot (<["BW_HOST" := "https://vault.example"]> Sample.secrets)) in
  fst result
  = Ret ("", Some "bw login failed: client_id or client_secret is incorrect. - exit status 1")
  /\ spawned (trace (snd result))
     = [["bw"; "config"; "server"; "https://vault.example"];
        ["bw"; "login"; "--apikey"]].
Proof.
  refine (proj2 (loginAndGetSession_first_failure_is_final
                   (Sample.world Example.bw_login_refused
                      (fun _ => Sample.locked))
                   Sample.lib
                   (boot (<["BW_HOST" := "https://vault.example"]>
                            Sample.secrets)) _ _ _)
                "exit status 1" _ _);
    try (vm_compute; congruence); reflexivity.
Defined.

(** X5. [loginAndGetSession] keeps the values of the three secrets off
    its command lines and out of its output; they reach the commands only
    through the environment the commands inherit. Take two processes with
    the same history and the same [BW_HOST], each with its own non-empty
    secrets and each in its own world: as long as the commands answer the
    two alike, they spawn the same command lines, write the same lines
    and return the same result. *)
Theorem loginAndGetSession_keeps_secrets_off_command_lines
    (W W' : World) (L : GoLib) (p q : Proc) :
  trace p = trace q ->
  os_Getenv (environ p) "BW_HOST" = os_Getenv (environ q) "BW_HOST" ->
  os_Getenv (environ p) "BW_CLIENTID" <> "" ->
  os_Getenv (environ p) "BW_CLIENTSECRET" <> "" ->
  os_Getenv (environ p) "BW_PASSWORD" <> "" ->
  os_Getenv (environ q) "BW_CLIENTID" <> "" ->
  os_Getenv (environ q) "BW_CLIENTSECRET" <> "" ->
  os_Getenv (environ q) "BW_PASSWORD" <> "" ->
  (forall (i : nat) (argv : list string),
      next_command W p i argv = next_command W' q i argv) ->
  fst (loginAndGetSession W L p) = fst (loginAndGetSession W' L q)
  /\ trace (snd (loginAndGetSession W L p))
     = trace (snd (loginAndGetSession W' L q)).
Proof.
  intros Htrace Hhost Hid Hs Hpw Hid' Hs' Hpw' Hsame.
  rewrite (loginAndGetSession_run W L p Hid Hs Hpw),
    (loginAndGetSession_run W' L q Hid' Hs' Hpw').
  cbv zeta. rewrite Hhost, Hsame.
  assert (forall es : list Event,
             fst (login_then_unlock W L (add_events p es))
             = fst (login_then_unlock W' L (add_events q es))
             /\ trace (snd (login_then_unlock W L (add_events p es)))
                = trace (snd (login_then_unlock W' L (add_events q es))))
    as Hrest.
  { intros es. apply login_then_unlock_same_answers.
    - simpl. rewrite Htrace. reflexivity.
    - intros i argv. rewrite !next_command_add_events. apply Hsame. }
  destruct (bool_decide _); [| apply Hrest].
  destruct (cmd_err (next_command W' q 0 _)); [| apply Hrest].
  simpl. rewrite Htrace. auto.
Qed.

Lemma loginAndGetSession_keeps_secrets_off_command_lines_witness :
  let W := Sample.world Sample.bw_ok (fun _ => Sample.locked) in
  let W' := Sample.world Sample.bw_ok (fun _ => Sample.unlocked) in
  let p := boot Sample.secrets in
  let q :=
    boot (<["BW_PASSWORD" := "correct horse"]>
            (<["BW_CLIENTID" := "user.77aa"]> Sample.secrets)) in
  fst (loginAndGetSession W Sample.lib p)
  = fst (loginAndGetSession W' Sample.lib q)
  /\ trace (snd (loginAndGetSession W Sample.lib p))
     = trace (snd (loginAndGetSession W' Sample.lib q)).
Proof.
  intros W W' p q.
  apply (loginAndGetSession_keeps_secrets_off_command_lines
           W W' Sample.lib p q);
    try reflexivity; try (vm_compute; congruence).
Defined.

(** ** The poller, in every world *)

Lemma first_true_below (f : nat -> bool) (n : nat) :
  (exists m : nat,
      (m < n)%nat /\ f m = true /\ forall j : nat, (j < m)%nat -> f j = false)
  \/ (forall j : nat, (j < n)%nat -> f j = false).
Proof.
  induction n as [|n [IH | IH]].
  - right. intros j Hj. lia.
  - left. destruct IH as (m & Hm & Hf & Hlt). exists m. auto with lia.
  - destruct (f n) eqn:En.
    + left. exists n. auto with lia.
    + right. intros j Hj.
      destruct (decide (j = n)) as [-> | Hne]; [exact En |].
      apply IH. lia.
Qed.

(** The two ways a poll can go. *)
Lemma waitForBwServe_shape (W : World) (L : GoLib) (port : string)
    (p : Proc) :
  let url := "http://127.0.0.1:" +:+ port +:+ "/status" in
  let n := Z.to_nat (bwServeWaitRetries p) in
  let hello :=
    Stdout ("Waiting for 'bw serve' to become ready and unlocked..." +:+ LF) in
  let ready i := attempt_unlocked L (next_get W p i url) in
  (exists m : nat,
      (m < n)%nat /\ ready m = true
      /\ (forall j : nat, (j < m)%nat -> ready j = false)
      /\ waitForBwServe W L port p
         = (Ret None,
            add_events p
              (hello :: rounds url (bwServeWaitInterval p) m
                 ++ [HttpGet url])))
  \/ ((forall j : nat, (j < n)%nat -> ready j = false)
      /\ waitForBwServe W L port p
         = (Ret (Some "timeout waiting for bw serve to become unlocked"),
            add_events p (hello :: rounds url (bwServeWaitInterval p) n))).
Proof.
  intros url n hello ready.
  destruct (first_true_below ready n) as [(m & Hm & Hat & Hbefore) | Hnone].
  - left. exists m. repeat split; try assumption.
    rewrite waitForBwServe_eq. fold url n.
    rewrite (poll_first_unlocked W L url n _ m Hm).
    + rewrite add_events_app. reflexivity.
    + intros j Hj. rewrite next_get_add_events. count_events.
      apply Hbefore, Hj.
    + rewrite next_get_add_events. count_events. exact Hat.
  - right. split; [exact Hnone |].
    rewrite waitForBwServe_eq. fold url n. rewrite poll_exhausts.
    + rewrite add_events_app. reflexivity.
    + intros i Hi. rewrite next_get_add_events. count_events.
      apply Hnone, Hi.
Qed.

(** X6. [waitForBwServe] reports success exactly when one of the
    attempts its retry count allows gets a payload that satisfies the
    unlock predicate; in every other run it reports the timeout. It has no
    third way out: no other error, no exit, no panic. *)
Theorem waitForBwServe_success_iff (W : World) (L : GoLib) (port : string)
    (p : Proc) :
  let url := "http://127.0.0.1:" +:+ port +:+ "/status" in
  let n := Z.to_nat (bwServeWaitRetries p) in
  (fst (waitForBwServe W L port p) = Ret None
   <-> exists k : nat,
         (k < n)%nat /\ unlocked_payload L (next_get W p k url))
  /\ (fst (waitForBwServe W L port p) = Ret None
      \/ fst (waitForBwServe W L port p)
         = Ret (Some "timeout waiting for bw serve to become unlocked")).
Proof.
  intros url n.
  destruct (waitForBwServe_shape W L port p)
    as [(m & Hm & Hat & _ & ->) | (Hnone & ->)]; simpl.
  - split; [| left; reflexivity].
    split; [| reflexivity]. intros _. exists m.
    split; [exact Hm |]. apply unlocked_payload_iff, Hat.
  - split; [| right; reflexivity].
    split; [discriminate |].
    intros (k & Hk & Hunlocked). apply unlocked_payload_iff in Hunlocked.
    fold url in Hnone. rewrite (Hnone k Hk) in Hunlocked. discriminate.
Qed.

(** X7. With a retry count of zero or less [waitForBwServe] gives up at
    once: it times out without a single request or pause, even when the
    vault is unlocked. *)
Theorem waitForBwServe_without_budget (W : World) (L : GoLib)
    (port : string) (p : Proc) :
  bwServeWaitRetries p <= 0 ->
  waitForBwServe W L port p
  = (Ret (Some "timeout waiting for bw serve to become unlocked"),
     add_events p
       [Stdout ("Waiting for 'bw serve' to become ready and unlocked..."
                  +:+ LF)]).
Proof.
  intros Hretries. rewrite waitForBwServe_eq.
  replace (Z.to_nat (bwServeWaitRetries p)) with 0%nat by lia.
  cbn [poll]. reflexivity.
Qed.

Lemma waitForBwServe_without_budget_witness :
  let p :=
    {| environ := ∅; bwServeWaitRetries := 0;
       bwServeWaitInterval := 1000000000; trace := [] |} in
  attempt_unlocked Sample.lib Sample.unlocked = true
  /\ waitForBwServe (Sample.world Sample.bw_ok (fun _ => Sample.unlocked))
       Sample.lib "8088" p
     = (Ret (Some "timeout waiting for bw serve to become unlocked"),
        add_events p
          [Stdout ("Waiting for 'bw serve' to become ready and unlocked..."
                     +:+ LF)]).
Proof.
  intros p. split; [vm_compute; reflexivity |].
  apply waitForBwServe_without_budget. simpl. lia.
Defined.



(** ** The backing service *)

(** X9. [startBwServe] spawns one command, [bw serve] bound to all
    interfaces on the given port with the session token on its command
    line, and ends the process with status 1 exactly when that command
    ends in an error; when the command exits zero [startBwServe] just
    returns and the process lives on. *)
Theorem startBwServe_fatal_iff_error (W : World) (port sessionToken : string)
    (p : Proc) :
  let argv :=
    ["bw"; "serve"; "--hostname"; "0.0.0.0"; "--port"; port;
     "--session"; sessionToken] in
  let cmd := next_command W p 0 argv in
  let run := startBwServe W port sessionToken p in
  spawned (trace (snd run)) = spawned (trace p) ++ [argv]
  /\ (fst run = Exit 1 <-> cmd_err cmd <> None)
  /\ (fst run = Ret tt <-> cmd_err cmd = None)
  /\ complaints (trace (snd run))
     = complaints (trace p)
       ++ match cmd_err cmd with
          | Some err => ["FATAL: 'bw serve' process failed: " +:+ err +:+ LF]
          | None => []
          end.
Proof.
  intros argv cmd run.
  assert (run
          = match cmd_err cmd with
            | Some err =>
                (Exit 1,
                 add_events p
                   [Stdout ("Starting 'bw serve' on internal port " +:+ port
                              +:+ LF);
                    Exec argv;
                    Stderr ("FATAL: 'bw serve' process failed: " +:+ err
                              +:+ LF)])
            | None =>
                (Ret tt,
                 add_events p
                   [Stdout ("Starting 'bw serve' on internal port " +:+ port
                              +:+ LF);
                    Exec argv])
            end) as ->.
  { subst run. unfold startBwServe.
    unfold eprintf, emit, mbind, mret, M_bind, M_ret.
    rewrite run_command_eq, next_command_add_events. count_events.
    fold argv. fold cmd.
    destruct (cmd_err cmd); unfold os_Exit; rewrite !add_events_app;
      reflexivity. }
  destruct (cmd_err cmd) as [err|]; cbn [fst snd trace add_events];
    rewrite spawned_app, complaints_app; simpl; rewrite ?app_nil_r;
    repeat split; congruence.
Qed.

(** ** The router, request by request *)

Lemma setupRouter_healthz (W : World) (r : Request) (p : Proc) :
  Path r = "/healthz" -> setupRouter W r p = healthz r p.
Proof. intros Hpath. unfold setupRouter. rewrite Hpath. reflexivity. Qed.

Lemma setupRouter_other (W : World) (r : Request) (p : Proc) :
  Path r <> "/healthz" -> Path r <> "/sync" ->
  setupRouter W r p = proxy_ServeHTTP W r p.
Proof.
  intros H1 H2. unfold setupRouter.
  rewrite (bool_decide_eq_false_2 _ H1), (bool_decide_eq_false_2 _ H2).
  reflexivity.
Qed.

Lemma sync_other_method (W : World) (r : Request) (p : Proc) :
  Method r <> "POST" ->
  sync W r p = (Ret {| Code := 405; Body := "Method not allowed" +:+ LF |}, p).
Proof.
  intros Hmethod. unfold sync, MethodPost.
  rewrite (bool_decide_eq_true_2 _ Hmethod). reflexivity.
Qed.

Lemma proxy_ServeHTTP_run (W : World) (r : Request) (p : Proc) :
  proxy_ServeHTTP W r p
  = (Ret {| Code := fst (proxy_result W (Method r) (Path r));
            Body := snd (proxy_result W (Method r) (Path r)) |},
     add_events p [Forward (Method r) (Path r)]).
Proof.
  unfold proxy_ServeHTTP, emit, mbind, mret, M_bind, M_ret.
  destruct (proxy_result W (Method r) (Path r)). reflexivity.
Qed.

(** X10. Serving a request never ends the process, and the only
    requests that make the router spawn a command are the POSTs to
    [/sync], which spawn [bw sync] once each; the router itself sends no
    HTTP request. *)
Theorem setupRouter_spawns_only_on_sync_post (W : World) (r : Request)
    (p : Proc) :
  exists (reply : Reply) (es : list Event),
    setupRouter W r p = (Ret reply, add_events p es)
    /\ spawned es
       = (if bool_decide (Path r = "/sync") && bool_decide (Method r = "POST")
          then [["bw"; "sync"]] else [])
    /\ fetched es = [] /\ posted es = [].
Proof.
  destruct (decide (Path r = "/healthz")) as [Hh | Hh].
  - rewrite (setupRouter_healthz W r p Hh). exists {| Code := 200; Body := "OK" |}, [].
    rewrite add_events_nil. rewrite Hh. repeat split.
  - destruct (decide (Path r = "/sync")) as [Hs | Hs].
    + rewrite (setupRouter_sync W r p Hs), (bool_decide_eq_true_2 _ Hs).
      destruct (decide (Method r = "POST")) as [Hm | Hm].
      * rewrite (bool_decide_eq_true_2 _ Hm).
        pose proof (sync_post W r p Hm) as Hrun. cbv zeta in Hrun.
        rewrite Hrun.
        destruct (cmd_err (next_command W p 0 ["bw"; "sync"]));
          eexists _, _; repeat split.
      * rewrite (bool_decide_eq_false_2 _ Hm), (sync_other_method W r p Hm).
        eexists _, []. rewrite add_events_nil. repeat split.
    + rewrite (setupRouter_other W r p Hh Hs), proxy_ServeHTTP_run.
      rewrite (bool_decide_eq_false_2 _ Hs).
      eexists _, _. repeat split.
Qed.

(** X11. [/healthz] answers 200 with the body [OK] to every method, not
    only to GET, in every world, and does nothing else: the process is
    left exactly as it was. *)
Theorem healthz_any_method (W : World) (r : Request) (p : Proc) :
  Path r = "/healthz" ->
  setupRouter W r p = (Ret {| Code := 200; Body := "OK" |}, p).
Proof. intros Hpath. rewrite (setupRouter_healthz W r p Hpath). reflexivity. Qed.

Lemma healthz_any_method_witness :
  setupRouter (Sample.world Sample.bw_fails (fun _ => Sample.locked))
    {| Method := "DELETE"; Path := "/healthz" |} (boot ∅)
  = (Ret {| Code := 200; Body := "OK" |}, boot ∅).
Proof. apply healthz_any_method. reflexivity. Defined.

(** X12. The two local paths match exactly: a request for any other
    clean path, such as [/sync/] or [/healthz/live], is handed to the
    reverse proxy once, with its method and path, and the answer of the
    backing service is the reply; no command is spawned for it. Paths
    that are not clean, such as [//healthz] or [/x/../sync], are outside
    this statement: the mux redirects them before any handler runs. *)
Theorem other_paths_are_forwarded (W : World) (r : Request) (p : Proc) :
  clean_path (Path r) = true ->
  Path r <> "/healthz" ->
  Path r <> "/sync" ->
  setupRouter W r p
  = (Ret {| Code := fst (proxy_result W (Method r) (Path r));
            Body := snd (proxy_result W (Method r) (Path r)) |},
     add_events p [Forward (Method r) (Path r)])
  /\ spawned (trace (snd (setupRouter W r p))) = spawned (trace p).
Proof.
  intros _ Hh Hs. rewrite (setupRouter_other W r p Hh Hs).
  rewrite proxy_ServeHTTP_run. split; [reflexivity |].
  simpl. rewrite spawned_app. apply app_nil_r.
Qed.

Lemma other_paths_are_forwarded_witness :
  clean_path "/sync/" = true
  /\ clean_path "/x/../sync" = false
  /\ clean_path "//healthz" = false
  /\ setupRouter (Sample.world Sample.bw_ok (fun _ => Sample.locked))
       {| Method := "POST"; Path := "/sync/" |} (boot ∅)
     = (Ret {| Code := 200; Body := "" |},
        add_events (boot ∅) [Forward "POST" "/sync/"]).
Proof.
  split; [reflexivity |]. split; [reflexivity |]. split; [reflexivity |].
  refine (proj1 (other_paths_are_forwarded
                   (Sample.world Sample.bw_ok (fun _ => Sample.locked))
                   {| Method := "POST"; Path := "/sync/" |} (boot ∅)
                   _ _ _)); [reflexivity | simpl; discriminate ..].
Defined.

(** X13. A request to [/sync] is answered 200, 405 or 500 and nothing
    else; 200 exactly for a POST whose sync command ended without error.
    A 500 reply and the line written to the error stream are the same
    text; the other two replies write nothing there. *)
Theorem sync_replies (W : World) (r : Request) (p : Proc) :
  Path r = "/sync" ->
  exists (reply : Reply) (es : list Event),
    setupRouter W r p = (Ret reply, add_events p es)
    /\ (Code reply = 200 /\ complaints es = []
        \/ Code reply = 405 /\ es = []
        \/ Code reply = 500 /\ complaints es = [Body reply])
    /\ (Code reply = 200
        <-> Method r = "POST"
            /\ cmd_err (next_command W p 0 ["bw"; "sync"]) = None).
Proof.
  intros Hpath. rewrite (setupRouter_sync W r p Hpath).
  destruct (decide (Method r = "POST")) as [Hm | Hm].
  - pose proof (sync_post W r p Hm) as Hrun. cbv zeta in Hrun.
    rewrite Hrun.
    destruct (cmd_err (next_command W p 0 ["bw"; "sync"])) as [err|].
    + eexists _, _. split; [reflexivity |]. split.
      * right. right. split; reflexivity.
      * simpl. split; [discriminate | intros [_ [=]]].
    + eexists _, _. split; [reflexivity |]. split.
      * left. split; reflexivity.
      * simpl. tauto.
  - rewrite (sync_other_method W r p Hm).
    eexists _, []. rewrite add_events_nil. split; [reflexivity |]. split.
    + right. left. split; reflexivity.
    + simpl. split; [discriminate | tauto].
Qed.

Lemma sync_replies_witness :
  exists (reply : Reply) (es : list Event),
    setupRouter (Sample.world Sample.bw_fails (fun _ => Sample.locked))
      {| Method := "POST"; Path := "/sync" |} (boot ∅)
    = (Ret reply, add_events (boot ∅) es)
    /\ (Code reply = 200 /\ complaints es = []
        \/ Code reply = 405 /\ es = []
        \/ Code reply = 500 /\ complaints es = [Body reply])
    /\ (Code reply = 200
        <-> "POST" = "POST"
            /\ cmd_err
                 (next_command
                    (Sample.world Sample.bw_fails (fun _ => Sample.locked))
                    (boot ∅) 0 ["bw"; "sync"]) = None).
Proof.
  apply (sync_replies
           (Sample.world Sample.bw_fails (fun _ => Sample.locked))
           {| Method := "POST"; Path := "/sync" |} (boot ∅)).
  reflexivity.
Defined.

(** ** The periodic sync, tick by tick *)

Lemma http_Post_eq (W : World) (url contentType : string) (p : Proc) :
  http_Post W url contentType p
  = (Ret (next_post W p 0 url), add_events p [HttpPost url contentType]).
Proof. unfold next_post. rewrite Nat.add_0_r. reflexivity. Qed.

Lemma next_post_add_events (W : World) (p : Proc) (es : list Event)
    (i : nat) (url : string) :
  next_post W (add_events p es) i url
  = next_post W p (count is_post es + i) url.
Proof.
  unfold next_post. simpl. rewrite count_app, Nat.add_assoc. reflexivity.
Qed.

(** One tick: the announcement, the POST, and one line on the error
    stream unless the answer is a 200. *)
Lemma periodic_sync_tick_run (W : World) (url : string) (p : Proc) :
  exists lines : list string,
    periodic_sync_tick W url p
    = (Ret tt,
       add_events p
         (Stdout ("Periodic sync triggered..." +:+ LF)
            :: HttpPost url "application/json" :: map Stderr lines))
    /\ length lines
       = (if answered_ok (next_post W p 0 url) then 0 else 1)%nat.
Proof.
  unfold periodic_sync_tick.
  unfold fmt_Println, eprintf, mbind, M_bind at 1. unfold emit at 1.
  unfold mbind, M_bind at 1. rewrite http_Post_eq, next_post_add_events.
  count_events. rewrite add_events_app. cbn [app].
  destruct (next_post W p 0 url) as [err | code body [err|]];
    cbn [answered_ok]; unfold StatusOK.
  - eexists [_]. unfold eprintf, emit. rewrite add_events_app.
    split; reflexivity.
  - destruct (decide (code = 200)) as [Hc | Hc].
    + rewrite (bool_decide_eq_false_2 (code <> 200)) by tauto.
      rewrite (bool_decide_eq_true_2 _ Hc).
      exists []. split; reflexivity.
    + rewrite (bool_decide_eq_true_2 (code <> 200)) by tauto.
      rewrite (bool_decide_eq_false_2 _ Hc).
      eexists [_]. unfold eprintf, emit. rewrite add_events_app.
      split; reflexivity.
  - destruct (decide (code = 200)) as [Hc | Hc].
    + rewrite (bool_decide_eq_false_2 (code <> 200)) by tauto.
      rewrite (bool_decide_eq_true_2 _ Hc).
      exists []. split; reflexivity.
    + rewrite (bool_decide_eq_true_2 (code <> 200)) by tauto.
      rewrite (bool_decide_eq_false_2 _ Hc).
      eexists [_]. unfold eprintf, emit. rewrite add_events_app.
      split; reflexivity.
Qed.

Lemma events_of_complaints (lines : list string) :
  posted (map Stderr lines) = []
  /\ spawned (map Stderr lines) = []
  /\ fetched (map Stderr lines) = []
  /\ complaints (map Stderr lines) = lines
  /\ count is_post (map Stderr lines) = 0%nat.
Proof.
  induction lines as [|l lines (Hp & Hs & Hf & Hc & Hn)]; [repeat split |].
  cbn [map]. rewrite count_cons, Hn.
  change (Stderr l :: map Stderr lines) with ([Stderr l] ++ map Stderr lines).
  rewrite posted_app, spawned_app, fetched_app, complaints_app,
    Hp, Hs, Hf, Hc.
  repeat split.
Qed.

Lemma failing_posts_S (W : World) (p : Proc) (url : string) (n : nat)
    (es : list Event) :
  count is_post es = 1%nat ->
  failing_posts W p url (S n)
  = ((if answered_ok (next_post W p 0 url) then 0 else 1)
     + failing_posts W (add_events p es) url n)%nat.
Proof.
  intros Hes. unfold failing_posts.
  cbn [seq]. rewrite filter_cons.
  assert (length (filter (fun i => answered_ok (next_post W p i url) = false)
                    (seq 1 n))
          = length (filter
                      (fun i => answered_ok
                                  (next_post W (add_events p es) i url)
                                = false)
                      (seq 0 n))) as Hlen.
  { rewrite <- (fmap_S_seq 0 n).
    generalize (seq 0 n). intros l.
    induction l as [|i l IH]; [reflexivity |].
    rewrite fmap_cons, !filter_cons, next_post_add_events, Hes.
    change (1 + i)%nat with (S i).
    destruct (decide (answered_ok (next_post W p (S i) url) = false));
      simpl; rewrite IH; reflexivity. }
  destruct (answered_ok (next_post W p 0 url)); case_decide;
    simpl; rewrite ?Hlen; congruence.
Qed.

(** The loop after [n] ticks. *)
Lemma periodic_sync_loop_run (W : World) (url : string) (n : nat) :
  forall p : Proc,
    exists es : list Event,
      periodic_sync_loop W url n p = (Ret tt, add_events p es)
      /\ posted es = replicate n (url, "application/json")
      /\ spawned es = [] /\ fetched es = []
      /\ length (complaints es) = failing_posts W p url n.
Proof.
  induction n as [|n IH]; intros p.
  - exists []. rewrite add_events_nil. repeat split.
  - cbn [periodic_sync_loop]. unfold mbind, M_bind.
    destruct (periodic_sync_tick_run W url p) as (lines & -> & Hlines).
    destruct (events_of_complaints lines) as (Hp & Hs & Hf & Hc & Hn).
    set (tick := Stdout _ :: HttpPost url _ :: map Stderr lines).
    destruct (IH (add_events p tick)) as (es & -> & Hposted & Hsp & Hfe & Hco).
    rewrite add_events_app. exists (tick ++ es). split; [reflexivity |].
    rewrite posted_app, spawned_app, fetched_app, complaints_app,
      Hposted, Hsp, Hfe, length_app, Hco.
    subst tick.
    change (Stdout ?a :: HttpPost ?b ?c :: ?l)
      with ([Stdout a; HttpPost b c] ++ l).
    rewrite posted_app, spawned_app, fetched_app, complaints_app,
      Hp, Hs, Hf, Hc.
    repeat split.
    rewrite (failing_posts_S W p url n
               ([Stdout ("Periodic sync triggered..." +:+ LF);
                 HttpPost url "application/json"] ++ map Stderr lines)).
    + simpl. rewrite Hlines. reflexivity.
    + rewrite count_app, Hn. reflexivity.
Qed.

(** X14. A tick answered badly does not stop the schedule: after [n]
    ticks the loop has sent exactly [n] POSTs, all to the sync URL with
    the JSON content type, whatever the answers were; it has written one
    line to the error stream per POST that was not answered with 200 and
    none for the others; it has spawned no command itself and has neither
    exited nor panicked. *)
Theorem periodic_sync_loop_posts_every_tick (W : World) (url : string)
    (n : nat) (p : Proc) :
  exists es : list Event,
    periodic_sync_loop W url n p = (Ret tt, add_events p es)
    /\ posted es = replicate n (url, "application/json")
    /\ length (complaints es) = failing_posts W p url n
    /\ spawned es = [] /\ fetched es = [].
Proof.
  destruct (periodic_sync_loop_run W url n p)
    as (es & Hrun & Hposted & Hsp & Hfe & Hco).
  exists es. auto.
Qed.

(** X15. When [time.ParseDuration] accepts the configured interval but
    the duration is zero or negative, [startPeriodicSync] panics in
    [time.NewTicker]: it has announced the schedule and never sends a
    single POST. *)
Theorem startPeriodicSync_nonpositive_interval (W : World) (L : GoLib)
    (host port : string) (ticks : nat) (p : Proc) (d : Z) :
  time_ParseDuration L (getEnv (environ p) "BW_SYNC_INTERVAL" "2m") = inl d ->
  d <= 0 ->
  startPeriodicSync W L host port ticks p
  = (Panic "non-positive interval for NewTicker",
     add_events p
       [Stdout ("Starting periodic sync every " +:+ Duration_String L d
                  +:+ " targeting "
                  +:+ ("http://" +:+ host +:+ ":" +:+ port +:+ "/sync")
                  +:+ LF)]).
Proof.
  intros Hparse Hd. unfold startPeriodicSync.
  unfold mbind, M_bind at 1. unfold reads at 1. rewrite Hparse.
  unfold emit, mbind, mret, M_bind, M_ret.
  unfold time_NewTicker. rewrite (bool_decide_eq_true_2 _ Hd).
  reflexivity.
Qed.

Lemma startPeriodicSync_nonpositive_interval_witness :
  startPeriodicSync (Sample.world Sample.bw_ok (fun _ => Sample.locked))
    Sample.lib "localhost" "8087" 3 (boot {[ "BW_SYNC_INTERVAL" := "0s" ]})
  = (Panic "non-positive interval for NewTicker",
     add_events (boot {[ "BW_SYNC_INTERVAL" := "0s" ]})
       [Stdout ("Starting periodic sync every 0ns targeting http://localhost:8087/sync"
                  +:+ LF)]).
Proof.
  refine (startPeriodicSync_nonpositive_interval
            (Sample.world Sample.bw_ok (fun _ => Sample.locked))
            Sample.lib "localhost" "8087" 3
            (boot {[ "BW_SYNC_INTERVAL" := "0s" ]}) 0 _ _).
  - vm_compute. reflexivity.
  - lia.
Defined.

(** X16. When the configured interval parses to a positive duration,
    [startPeriodicSync] warns about nothing, starts its ticker with
    exactly that duration, and from then on posts once per tick to
    [http://host:port/sync]; it never runs [bw] itself. *)
Theorem startPeriodicSync_valid_interval (W : World) (L : GoLib)
    (host port : string) (ticks : nat) (p : Proc) (d : Z) :
  time_ParseDuration L (getEnv (environ p) "BW_SYNC_INTERVAL" "2m") = inl d ->
  0 < d ->
  let syncURL := "http://" +:+ host +:+ ":" +:+ port +:+ "/sync" in
  exists es : list Event,
    startPeriodicSync W L host port ticks p
    = (Ret tt,
       add_events p
         (Stdout ("Starting periodic sync every " +:+ Duration_String L d
                    +:+ " targeting " +:+ syncURL +:+ LF)
            :: NewTicker d :: es))
    /\ posted es = replicate ticks (syncURL, "application/json")
    /\ spawned es = [].
Proof.
  intros Hparse Hd syncURL. unfold startPeriodicSync.
  unfold mbind, M_bind at 1. unfold reads at 1. rewrite Hparse.
  unfold emit, mbind, mret, M_bind, M_ret.
  rewrite (time_NewTicker_positive d _ Hd). fold syncURL.
  destruct (periodic_sync_loop_run W syncURL ticks
              (add_events (add_events p
                 [Stdout ("Starting periodic sync every "
                            +:+ Duration_String L d
                            +:+ " targeting " +:+ syncURL +:+ LF)])
                 [NewTicker d]))
    as (es & -> & Hposted & Hsp & _).
  exists es. rewrite !add_events_app. auto.
Qed.

Lemma startPeriodicSync_valid_interval_witness :
  exists es : list Event,
    startPeriodicSync (Sample.world Sample.bw_ok (fun _ => Sample.locked))
      Sample.lib "localhost" "8087" 2 (boot {[ "BW_SYNC_INTERVAL" := "30s" ]})
    = (Ret tt,
       add_events (boot {[ "BW_SYNC_INTERVAL" := "30s" ]})
         (Stdout ("Starting periodic sync every 30000000000ns targeting http://localhost:8087/sync"
                    +:+ LF)
            :: NewTicker 30000000000 :: es))
    /\ posted es
       = [("http://localhost:8087/sync", "application/json");
          ("http://localhost:8087/sync", "application/json")]
    /\ spawned es = [].
Proof.
  refine (startPeriodicSync_valid_interval
            (Sample.world Sample.bw_ok (fun _ => Sample.locked))
            Sample.lib "localhost" "8087" 2
            (boot {[ "BW_SYNC_INTERVAL" := "30s" ]}) 30000000000 _ _).
  - vm_compute. reflexivity.
  - lia.
Defined.

(** ** Start-up, step by step *)

Lemma count_get_fetched (t : list Event) :
  count is_get t = length (fetched t).
Proof.
  induction t as [|e t IH]; [reflexivity |].
  rewrite count_cons, IH. destruct e; reflexivity.
Qed.

(** Steps 3 and 4 of [main]. *)
Lemma main_serve_run (bwServePort : string) (s : Main) :
  let env := environ (proc s) in
  let bwProxyPort := getEnv env "BW_PROXY_PORT" "8087" in
  let enabled := bool_decide (getEnv env "BW_DISABLE_SYNC" "false" <> "true") in
  main_serve bwServePort s
  = (Ret tt,
     {| proc :=
          add_events (proc s)
            (Stdout ("Bitwarden serve API is ready and unlocked. Authentication successful."
                       +:+ LF)
               :: (if enabled then []
                   else [Stdout ("Automatic sync is disabled." +:+ LF)]));
        launched :=
          launched s
          ++ GoStartProxyServer bwProxyPort bwServePort
          :: (if enabled
              then [GoStartPeriodicSync
                      (getEnv env "BW_PROXY_HOST" "localhost") bwProxyPort]
              else []) |}).
Proof.
  intros env bwProxyPort enabled. unfold main_serve.
  unfold call, go, getEnvM, fmt_Println, emit, reads, mbind, mret,
    MM_bind, MM_ret.
  cbn [proc launched environ add_events]. fold env. fold bwProxyPort.
  fold enabled.
  destruct enabled; cbn [proc launched]; rewrite <- ?app_assoc;
    rewrite ?add_events_app; reflexivity.
Qed.

(** [main] once the result of the login is known. *)
Lemma main_run (W : World) (L : GoLib)
    (Setenv_error : string -> string -> option error) (s : Main)
    (token : string) (err : option error) (p1 : Proc) :
  loginAndGetSession W L (proc s) = (Ret (token, err), p1) ->
  main W L Setenv_error s
  = match err with
    | Some e =>
        (Exit 1,
         {| proc :=
              add_events p1
                [Stderr ("FATAL: Bitwarden login failed: " +:+ e +:+ LF)];
            launched := launched s |})
    | None =>
        match Setenv_error "BW_SESSION" token with
        | Some e =>
            (Exit 1,
             {| proc :=
                  add_events p1
                    [Stderr
                       ("FATAL: Failed to set BW_SESSION environment variable: "
                          +:+ e +:+ LF)];
                launched := launched s |})
        | None =>
            let p2 :=
              {| environ := <["BW_SESSION" := token]> (environ p1);
                 bwServeWaitRetries := bwServeWaitRetries p1;
                 bwServeWaitInterval := bwServeWaitInterval p1;
                 trace := trace p1 |} in
            let bwServePort := getEnv (environ p2) "BW_SERVE_PORT" "8088" in
            let served :=
              launched s ++ [GoStartBwServe bwServePort token] in
            match waitForBwServe W L bwServePort p2 with
            | (Ret (Some e), p3) =>
                (Exit 1,
                 {| proc :=
                      add_events p3
                        [Stderr
                           ("FATAL: Bitwarden serve API failed to initialize: "
                              +:+ e +:+ LF)];
                    launched := served |})
            | (Ret None, p3) =>
                main_serve bwServePort {| proc := p3; launched := served |}
            | (Exit c, p3) => (Exit c, {| proc := p3; launched := served |})
            | (Panic msg, p3) =>
                (Panic msg, {| proc := p3; launched := served |})
            end
        end
    end.
Proof.
  intros Hlogin. unfold main.
  unfold mbind, MM_bind at 1. unfold call at 1. rewrite Hlogin.
  destruct err as [e|]; [reflexivity |].
  unfold mbind, MM_bind at 1. unfold call at 1. unfold os_Setenv.
  cbn [proc launched].
  destruct (Setenv_error "BW_SESSION" token) as [e|]; [reflexivity |].
  cbv zeta.
  unfold mbind, MM_bind at 1. unfold call at 1, getEnvM, reads.
  cbn [proc launched environ].
  unfold mbind, MM_bind at 1. unfold go at 1. cbn [proc launched].
  unfold mbind, MM_bind at 1. unfold call at 1. cbn [proc launched].
  destruct (waitForBwServe W L _ _) as [[[e|] | c | msg] p3]; reflexivity.
Qed.

(** Every way a start-up can go, from the image the operating system
    starts. *)
Lemma main_shape (W : World) (L : GoLib)
    (Setenv_error : string -> string -> option error)
    (env : gmap string string) :
  let r := main W L Setenv_error (start env) in
  let bwServePort := getEnv env "BW_SERVE_PORT" "8088" in
  let bwProxyPort := getEnv env "BW_PROXY_PORT" "8087" in
  let url := "http://127.0.0.1:" +:+ bwServePort +:+ "/status" in
  exists (token : string) (err : option error),
    fst (loginAndGetSession W L (boot env)) = Ret (token, err)
    /\ match err, Setenv_error "BW_SESSION" token with
       | Some e, _ =>
           fst r = Exit 1 /\ launched (snd r) = []
           /\ environ (proc (snd r)) = env
           /\ fetched (trace (proc (snd r))) = []
           /\ exists es : list Event,
                trace (proc (snd r))
                = es ++ [Stderr ("FATAL: Bitwarden login failed: " +:+ e
                                   +:+ LF)]
       | None, Some e =>
           fst r = Exit 1 /\ launched (snd r) = []
           /\ environ (proc (snd r)) = env
           /\ fetched (trace (proc (snd r))) = []
           /\ exists es : list Event,
                trace (proc (snd r))
                = es ++ [Stderr
                           ("FATAL: Failed to set BW_SESSION environment variable: "
                              +:+ e +:+ LF)]
       | None, None =>
           environ (proc (snd r)) = <["BW_SESSION" := token]> env
           /\ ((exists k : nat,
                   (k < 30)%nat /\ unlocked_payload L (get_result W k url))
               /\ fst r = Ret tt
               /\ launched (snd r)
                  = GoStartBwServe bwServePort token
                    :: GoStartProxyServer bwProxyPort bwServePort
                    :: (if bool_decide
                             (getEnv env "BW_DISABLE_SYNC" "false" <> "true")
                        then [GoStartPeriodicSync
                                (getEnv env "BW_PROXY_HOST" "localhost")
                                bwProxyPort]
                        else [])
               \/ (forall k : nat,
                      (k < 30)%nat ->
                      ~ unlocked_payload L (get_result W k url))
                  /\ fst r = Exit 1
                  /\ launched (snd r) = [GoStartBwServe bwServePort token]
                  /\ exists es : list Event,
                       trace (proc (snd r))
                       = es ++ [Stderr
                                  ("FATAL: Bitwarden serve API failed to initialize: timeout waiting for bw serve to become unlocked"
                                     +:+ LF)])
       end.
Proof.
  intros r bwServePort bwProxyPort url. subst r.
  destruct (loginAndGetSession_shape W L (boot env))
    as (token & err & es1 & k & Hrun & _ & Hfetched & _ & _).
  exists token, err. rewrite Hrun. split; [reflexivity |].
  rewrite (main_run W L Setenv_error (start env) token err _ Hrun).
  destruct err as [e|].
  { cbn [fst snd proc launched start trace environ add_events].
    repeat split.
    - rewrite !fetched_app, Hfetched. reflexivity.
    - eexists. reflexivity. }
  destruct (Setenv_error "BW_SESSION" token) as [e|].
  { cbn [fst snd proc launched start trace environ add_events].
    repeat split.
    - rewrite !fetched_app, Hfetched. reflexivity.
    - eexists. reflexivity. }
  cbv zeta. cbn [environ bwServeWaitRetries bwServeWaitInterval trace
                 add_events boot launched start app].
  assert (forall key fallback : string,
             key <> "BW_SESSION" ->
             getEnv (<["BW_SESSION" := token]> env) key fallback
             = getEnv env key fallback) as Hother.
  { intros key fallback Hkey. unfold getEnv, os_LookupEnv.
    rewrite lookup_insert_ne by congruence. reflexivity. }
  rewrite (Hother "BW_SERVE_PORT" "8088") by discriminate.
  fold bwServePort.
  set (p2 := {| environ := <["BW_SESSION" := token]> env;
                bwServeWaitRetries := 30;
                bwServeWaitInterval := 1 * Second;
                trace := es1 |}).
  assert (forall i : nat, next_get W p2 i url = get_result W i url) as Hget.
  { intros i. unfold next_get. cbn [trace p2].
    rewrite count_get_fetched, Hfetched. reflexivity. }
  destruct (waitForBwServe_shape W L bwServePort p2)
    as [(m & Hm & Hat & _ & ->) | (Hnone & ->)].
  - rewrite main_serve_run. cbv zeta.
    cbn [fst snd proc launched environ add_events p2].
    rewrite (Hother "BW_PROXY_PORT" "8087"),
      (Hother "BW_DISABLE_SYNC" "false"),
      (Hother "BW_PROXY_HOST" "localhost") by discriminate.
    fold bwProxyPort. split; [reflexivity |]. left.
    split; [| split; reflexivity].
    exists m. split; [exact Hm |].
    apply unlocked_payload_iff. fold url in Hat. rewrite <- Hget. exact Hat.
  - cbn [fst snd proc launched environ add_events p2 trace].
    split; [reflexivity |]. right.
    split; [| split; [reflexivity | split; [reflexivity |]]].
    + intros i Hi Hunlocked. apply unlocked_payload_iff in Hunlocked.
      rewrite <- Hget in Hunlocked. fold url in Hnone.
      rewrite (Hnone i Hi) in Hunlocked. discriminate.
    + eexists. reflexivity.
Qed.

(** X17. A start-up ends in one of two ways: [main] reaches its final
    [select] with the process alive, or the process exits with status 1;
    it never panics. A start-up that exits has started no goroutine or
    only [startBwServe]. A start-up that stays has started, in this
    order, [startBwServe] with the token of the login, [startProxyServer]
    targeting the serve port, and [startPeriodicSync] unless it is
    disabled, and has put the token in [BW_SESSION]. *)
Theorem main_outcomes (W : World) (L : GoLib)
    (Setenv_error : string -> string -> option error)
    (env : gmap string string) :
  let r := main W L Setenv_error (start env) in
  let bwServePort := getEnv env "BW_SERVE_PORT" "8088" in
  let bwProxyPort := getEnv env "BW_PROXY_PORT" "8087" in
  (fst r = Ret tt \/ fst r = Exit 1)
  /\ (fst r = Exit 1 ->
      launched (snd r) = []
      \/ exists token : string,
           launched (snd r) = [GoStartBwServe bwServePort token])
  /\ (fst r = Ret tt ->
      exists token : string,
        fst (loginAndGetSession W L (boot env)) = Ret (token, None)
        /\ environ (proc (snd r)) = <["BW_SESSION" := token]> env
        /\ launched (snd r)
           = GoStartBwServe bwServePort token
             :: GoStartProxyServer bwProxyPort bwServePort
             :: (if bool_decide
                      (getEnv env "BW_DISABLE_SYNC" "false" <> "true")
                 then [GoStartPeriodicSync
                         (getEnv env "BW_PROXY_HOST" "localhost")
                         bwProxyPort]
                 else [])).
Proof.
  intros r bwServePort bwProxyPort.
  destruct (main_shape W L Setenv_error env) as (token & err & Hlogin & H).
  fold r bwServePort bwProxyPort in H.
  destruct err as [e|].
  { destruct H as (Hexit & Hnone & _). rewrite Hexit.
    split; [right; reflexivity |]. split; [auto | discriminate]. }
  destruct (Setenv_error "BW_SESSION" token) as [e|].
  { destruct H as (Hexit & Hnone & _). rewrite Hexit.
    split; [right; reflexivity |]. split; [auto | discriminate]. }
  destruct H as (Henv & [(_ & Hret & Hlaunched) | (_ & Hexit & Hlaunched & _)]).
  - rewrite Hret. split; [left; reflexivity |]. split; [discriminate |].
    intros _. exists token. auto.
  - rewrite Hexit. split; [right; reflexivity |].
    split; [| discriminate]. intros _. right. exists token. exact Hlaunched.
Qed.

(** X18. The proxy is started only once the vault is known to be
    unlocked: in every start-up that starts [startProxyServer], one of
    the first 30 GETs to the status URL of the serve port was answered
    with a payload that satisfies the unlock predicate, and the proxy
    targets that serve port. *)
Theorem main_proxy_only_after_unlock (W : World) (L : GoLib)
    (Setenv_error : string -> string -> option error)
    (env : gmap string string) (proxyPort targetPort : string) :
  let r := main W L Setenv_error (start env) in
  let bwServePort := getEnv env "BW_SERVE_PORT" "8088" in
  GoStartProxyServer proxyPort targetPort ∈ launched (snd r) ->
  targetPort = bwServePort
  /\ proxyPort = getEnv env "BW_PROXY_PORT" "8087"
  /\ exists k : nat,
       (k < 30)%nat
       /\ unlocked_payload L
            (get_result W k
               ("http://127.0.0.1:" +:+ bwServePort +:+ "/status")).
Proof.
  intros r bwServePort Hin.
  destruct (main_shape W L Setenv_error env) as (token & err & Hlogin & H).
  fold r bwServePort in H.
  destruct err as [e|].
  { destruct H as (_ & Hnone & _). rewrite Hnone in Hin.
    apply list_elem_of_In in Hin. destruct Hin. }
  destruct (Setenv_error "BW_SESSION" token) as [e|].
  { destruct H as (_ & Hnone & _). rewrite Hnone in Hin.
    apply list_elem_of_In in Hin. destruct Hin. }
  destruct H as (_ & [(Hk & _ & Hlaunched) | (_ & _ & Hlaunched & _)]);
    rewrite Hlaunched in Hin; apply list_elem_of_In in Hin.
  - destruct Hin as [Hin | [Hin | Hin]]; [discriminate | |].
    + injection Hin as <- <-. auto.
    + destruct (bool_decide _); simpl in Hin;
        [destruct Hin as [Hin | []]; discriminate | destruct Hin].
  - destruct Hin as [Hin | []]. discriminate.
Qed.

Lemma main_proxy_only_after_unlock_witness :
  "8088" = getEnv Sample.secrets "BW_SERVE_PORT" "8088"
  /\ "8087" = getEnv Sample.secrets "BW_PROXY_PORT" "8087"
  /\ exists k : nat,
       (k < 30)%nat
       /\ unlocked_payload Sample.lib
            (get_result (Sample.world Sample.bw_ok Example.slow_start) k
               ("http://127.0.0.1:"
                  +:+ getEnv Sample.secrets "BW_SERVE_PORT" "8088"
                  +:+ "/status")).
Proof.
  apply (main_proxy_only_after_unlock
           (Sample.world Sample.bw_ok Example.slow_start) Sample.lib
           Example.Setenv_error Sample.secrets "8087" "8088").
  apply list_elem_of_In. vm_compute. tauto.
Defined.

(** X19. With the client id, the client secret or the unlock password
    empty or not set, the process writes the first line of the login and
    the fatal message and exits with status 1: no command is spawned, no
    goroutine started, no request sent. *)
Theorem main_missing_secret (W : World) (L : GoLib)
    (Setenv_error : string -> string -> option error)
    (env : gmap string string) :
  os_Getenv env "BW_CLIENTID" = ""
  \/ os_Getenv env "BW_CLIENTSECRET" = ""
  \/ os_Getenv env "BW_PASSWORD" = "" ->
  main W L Setenv_error (start env)
  = (Exit 1,
     {| proc :=
          add_events (boot env)
            [Stdout ("Executing Bitwarden login..." +:+ LF);
             Stderr ("FATAL: Bitwarden login failed: missing one or more required environment variables (BW_CLIENTID, BW_CLIENTSECRET, BW_PASSWORD)"
                       +:+ LF)];
        launched := [] |}).
Proof.
  intros Hmissing.
  rewrite (main_run W L Setenv_error (start env) _ _ _
             (loginAndGetSession_missing W L (boot env) Hmissing)).
  cbn [start launched]. rewrite add_events_app. reflexivity.
Qed.

Lemma main_missing_secret_witness :
  main (Sample.world Sample.bw_ok (fun _ => Sample.unlocked)) Sample.lib
    Example.Setenv_error (start (delete "BW_CLIENTID" Sample.secrets))
  = (Exit 1,
     {| proc :=
          add_events (boot (delete "BW_CLIENTID" Sample.secrets))
            [Stdout ("Executing Bitwarden login..." +:+ LF);
             Stderr ("FATAL: Bitwarden login failed: missing one or more required environment variables (BW_CLIENTID, BW_CLIENTSECRET, BW_PASSWORD)"
                       +:+ LF)];
        launched := [] |}).
Proof.
  apply main_missing_secret. left. vm_compute. reflexivity.
Defined.

(** X20. When the login succeeds but the token cannot be put in
    [BW_SESSION], the process exits with status 1 after the fatal
    message: the environment is unchanged, no goroutine was started and
    the status endpoint was never asked. *)
Theorem main_setenv_failure (W : World) (L : GoLib)
    (Setenv_error : string -> string -> option error)
    (env : gmap string string) (token : string) (e : error) :
  fst (loginAndGetSession W L (boot env)) = Ret (token, None) ->
  Setenv_error "BW_SESSION" token = Some e ->
  let r := main W L Setenv_error (start env) in
  fst r = Exit 1
  /\ launched (snd r) = []
  /\ environ (proc (snd r)) = env
  /\ fetched (trace (proc (snd r))) = []
  /\ exists es : list Event,
       trace (proc (snd r))
       = es ++ [Stderr
                  ("FATAL: Failed to set BW_SESSION environment variable: "
                     +:+ e +:+ LF)].
Proof.
  intros Hlogin Hsetenv r.
  destruct (main_shape W L Setenv_error env) as (token' & err & Hlogin' & H).
  fold r in H. rewrite Hlogin in Hlogin'. injection Hlogin' as <- <-.
  rewrite Hsetenv in H. exact H.
Qed.

Lemma main_setenv_failure_witness :
  let r :=
    main (Sample.world Example.bw_nul_key (fun _ => Sample.unlocked))
      Sample.lib Example.Setenv_error (start Sample.secrets) in
  fst r = Exit 1
  /\ launched (snd r) = []
  /\ environ (proc (snd r)) = Sample.secrets
  /\ fetched (trace (proc (snd r))) = []
  /\ exists es : list Event,
       trace (proc (snd r))
       = es ++ [Stderr
                  ("FATAL: Failed to set BW_SESSION environment variable: "
                     +:+ "setenv: invalid argument" +:+ LF)].
Proof.
  apply (main_setenv_failure
           (Sample.world Example.bw_nul_key (fun _ => Sample.unlocked))
           Sample.lib Example.Setenv_error Sample.secrets
           (String "000" "kZ9vQ==") "setenv: invalid argument");
    vm_compute; reflexivity.
Defined.

(** X21. The periodic sync is started exactly in the start-ups that
    stay alive with [BW_DISABLE_SYNC] reading anything but the exact
    string [true] (not set and empty read as [false]); it then targets
    the proxy host and the proxy port of the environment. *)
Theorem main_starts_sync_unless_disabled (W : World) (L : GoLib)
    (Setenv_error : string -> string -> option error)
    (env : gmap string string) (host port : string) :
  let r := main W L Setenv_error (start env) in
  GoStartPeriodicSync host port ∈ launched (snd r)
  <-> fst r = Ret tt
      /\ getEnv env "BW_DISABLE_SYNC" "false" <> "true"
      /\ host = getEnv env "BW_PROXY_HOST" "localhost"
      /\ port = getEnv env "BW_PROXY_PORT" "8087".
Proof.
  intros r.
  destruct (main_shape W L Setenv_error env) as (token & err & Hlogin & H).
  fold r in H.
  destruct err as [e|].
  { destruct H as (Hexit & Hnone & _). rewrite Hexit, Hnone. split.
    - intros Hin. apply list_elem_of_In in Hin. destruct Hin.
    - intros [[=] _]. }
  destruct (Setenv_error "BW_SESSION" token) as [e|].
  { destruct H as (Hexit & Hnone & _). rewrite Hexit, Hnone. split.
    - intros Hin. apply list_elem_of_In in Hin. destruct Hin.
    - intros [[=] _]. }
  destruct H as (_ & [(_ & Hret & Hlaunched) | (_ & Hexit & Hlaunched & _)]).
  - rewrite Hret, Hlaunched. rewrite list_elem_of_In.
    destruct (decide (getEnv env "BW_DISABLE_SYNC" "false" <> "true"))
      as [Hon | Hoff].
    + rewrite (bool_decide_eq_true_2 _ Hon). simpl. split.
      * intros [Hin | [Hin | [Hin | []]]]; try discriminate.
        injection Hin as <- <-. auto.
      * intros (_ & _ & -> & ->). auto.
    + rewrite (bool_decide_eq_false_2 _ Hoff). simpl. split.
      * intros [Hin | [Hin | []]]; discriminate.
      * intros (_ & Hon & _). contradiction.
  - rewrite Hexit, Hlaunched. split.
    + intros Hin. apply list_elem_of_In in Hin.
      destruct Hin as [Hin | []]. discriminate.
    + intros [[=] _].
Qed.

(** ** The environment lookup, again *)

(** X22. [getEnv] is [os.Getenv] with a fallback for the empty result:
    although it asks [os.LookupEnv] whether the variable is set, it
    answers the same for a variable that is not set and for an empty one.
    A value that is set and not empty is returned as it is, and with a
    fallback that is not empty the result is never empty. *)
Theorem getEnv_is_Getenv_with_fallback (env : gmap string string)
    (key fallback : string) :
  getEnv env key fallback
  = (if bool_decide (os_Getenv env key = "") then fallback
     else os_Getenv env key)
  /\ (forall value : string,
         env !! key = Some value -> value <> "" ->
         getEnv env key fallback = value)
  /\ (fallback <> "" -> getEnv env key fallback <> "").
Proof.
  unfold getEnv, os_LookupEnv, os_Getenv.
  destruct (env !! key) as [v|]; simpl.
  - destruct (decide (v = "")) as [-> | Hv].
    + simpl. repeat split; try congruence.
    + rewrite (bool_decide_eq_true_2 (v <> "")) by exact Hv.
      rewrite (bool_decide_eq_false_2 _ Hv).
      repeat split; congruence.
  - repeat split; congruence.
Qed.

(** ** The command double of the tests *)

(** X23. The helper process recovers exactly the command line that
    [mockExecCommand] was given, also when the arguments themselves
    contain [--], provided the path of the test binary is not [--]. *)
Theorem after_dashes_mockExecCommand (os_Args0 command : string)
    (args : list string) :
  os_Args0 <> "--" ->
  after_dashes (fst (mockExecCommand os_Args0 command args))
  = command :: args.
Proof.
  intros Hbin. unfold mockExecCommand. cbn [fst app after_dashes].
  rewrite (bool_decide_eq_false_2 _ Hbin). reflexivity.
Qed.

Lemma after_dashes_mockExecCommand_witness :
  after_dashes
    (fst (mockExecCommand "/tmp/go-build/main.test" "bw"
            ["list"; "items"; "--"; "--search"; "x"]))
  = ["bw"; "list"; "items"; "--"; "--search"; "x"].
Proof.
  apply (after_dashes_mockExecCommand "/tmp/go-build/main.test" "bw"
           ["list"; "items"; "--"; "--search"; "x"]).
  discriminate.
Defined.

(** X24. Under [mockExecCommand] every command succeeds: the helper
    process, started with the marker variable set to [1], exits with
    status 0 whatever the command is, so the branch that reports a missing
    command with status 2 is never taken; it prints [Sync successful]
    exactly for [bw sync ...] and nothing for any other command. *)
Theorem TestHelperProcess_under_mock (os_Args0 command : string)
    (args : list string) (p : Proc) :
  os_Args0 <> "--" ->
  os_Getenv (environ p) "GO_WANT_HELPER_PROCESS" = "1" ->
  TestHelperProcess (fst (mockExecCommand os_Args0 command args)) p
  = (Exit 0,
     add_events p
       (if bool_decide (command = "bw")
           && bool_decide (head args = Some "sync")
        then [Stdout ("Sync successful" +:+ LF)] else [])).
Proof.
  intros Hbin Hwant. unfold TestHelperProcess.
  unfold Getenv, reads, mbind, M_bind at 1. rewrite Hwant.
  rewrite (bool_decide_eq_false_2 ("1" <> "1")) by congruence.
  unfold mockExecCommand. cbn [fst app after_dashes].
  rewrite (bool_decide_eq_false_2 _ Hbin). cbn [bool_decide decide_rel].
  change (bool_decide ("-test.run=TestHelperProcess" = "--")) with false.
  change (bool_decide ("--" = "--")) with true. cbv iota.
  destruct (bool_decide (command = "bw")); cbn [andb];
    [| unfold os_Exit; rewrite add_events_nil; reflexivity].
  destruct args as [|arg args]; cbn [head];
    [rewrite (bool_decide_eq_false_2 (None = Some "sync")) by discriminate;
     unfold os_Exit; rewrite add_events_nil; reflexivity |].
  destruct (decide (arg = "sync")) as [-> | Harg].
  - rewrite !bool_decide_eq_true_2 by reflexivity. reflexivity.
  - rewrite (bool_decide_eq_false_2 _ Harg).
    rewrite (bool_decide_eq_false_2 (Some arg = Some "sync")) by congruence.
    unfold os_Exit. rewrite add_events_nil. reflexivity.
Qed.

Lemma TestHelperProcess_under_mock_witness :
  TestHelperProcess
    (fst (mockExecCommand "/tmp/go-build/main.test" "bw" ["sync"]))
    (boot {[ "GO_WANT_HELPER_PROCESS" := "1" ]})
  = (Exit 0,
     add_events (boot {[ "GO_WANT_HELPER_PROCESS" := "1" ]})
       [Stdout ("Sync successful" +:+ LF)]).
Proof.
  apply (TestHelperProcess_under_mock "/tmp/go-build/main.test" "bw"
           ["sync"] (boot {[ "GO_WANT_HELPER_PROCESS" := "1" ]})).
  - discriminate.
  - vm_compute. reflexivity.
Defined.
